(** * Contribution conformance validator of hseille/espresso

    A shallow embedding of [utils/build_package/validate.py]: the pytest
    module that checks every folder under [contrib/] against the standard
    function surface, together with the properties its specification states.

    Python's exceptions become an error monad that keeps the state reached when
    the exception was raised; the interpreter state touched by the validator
    ([sys.argv], [sys.path], the loaded module's own state) is passed
    explicitly, and a ghost trace records every call into the contribution. *)

From Stdlib Require Import String List ZArith Bool Arith Lia.
From ExtLib Require Import Structures.Monad.
Import ListNotations.
Import MonadNotation.
Local Open Scope string_scope.
Local Open Scope monad_scope.
Set Warnings "-register-all".

(** ** Exceptions and results *)

(** The exception classes the validator can meet.  A subclass of
    [NotImplementedError] is caught by [except NotImplementedError], so it is
    the same constructor here; every class without a role of its own is an
    [OtherError]. *)
Inductive exn : Type :=
| AssertionError
| NotImplementedError
| AttributeError
| TypeError
| ValueError
| KeyError
| FileNotFoundError
| NotADirectoryError
| IsADirectoryError
| ModuleNotFoundError
| YAMLError
| OtherError (name : string).

Inductive result (A : Type) : Type :=
| Ok (a : A)
| Raise (e : exn).
Arguments Ok {A} a.
Arguments Raise {A} e.

Definition is_Ok {A} (r : result A) : bool :=
  match r with Ok _ => true | Raise _ => false end.

#[export] Instance Monad_result : Monad result :=
  {| ret := fun _ a => Ok a;
     bind := fun _ _ c k => match c with Ok a => k a | Raise e => Raise e end |}.

(** [assert cond] *)
Definition assert (cond : bool) : result unit :=
  if cond then Ok tt else Raise AssertionError.

(** [except NotImplementedError] *)
Definition is_NotImplementedError (e : exn) : bool :=
  match e with NotImplementedError => true | _ => false end.

(** ** Strings and lists the way Python's operators see them *)

(** [x in names] for a list of strings *)
Definition str_in (x : string) (l : list string) : bool :=
  existsb (String.eqb x) l.

(** [sub in s] for two strings: substring test *)
Definition str_contains (sub s : string) : bool :=
  match String.index 0 sub s with Some _ => true | None => false end.

(** [l.insert(i, x)] for [i >= 0]: past the end it appends *)
Definition list_insert {A} (i : nat) (x : A) (l : list A) : list A :=
  firstn i l ++ x :: skipn i l.

(** ** The file system, read only for the validator *)

Inductive node : Type :=
| File (content : string)
| Dir (entries : list string) (st_size : nat).

Definition filesystem := string -> option node.

(** [os.listdir(path)] *)
Definition os_listdir (fs : filesystem) (path : string) : result (list string) :=
  match fs path with
  | Some (Dir entries _) => Ok entries
  | Some (File _) => Raise NotADirectoryError
  | None => Raise FileNotFoundError
  end.

(** [os.stat(path).st_size] *)
Definition os_stat_st_size (fs : filesystem) (path : string) : result nat :=
  match fs path with
  | Some (File content) => Ok (String.length content)
  | Some (Dir _ size) => Ok size
  | None => Raise FileNotFoundError
  end.

(** [open(path, "r")], read in full by the consumer of the stream *)
Definition open_r (fs : filesystem) (path : string) : result string :=
  match fs path with
  | Some (File content) => Ok content
  | Some (Dir _ _) => Raise IsADirectoryError
  | None => Raise FileNotFoundError
  end.

(** ** Parsed metadata documents *)

(** What [yaml.safe_load] can return.  A mapping keeps its pairs in document
    order; a Python dict has no duplicate keys. *)
Inductive yaml : Type :=
| YNull
| YBool (b : bool)
| YInt (z : Z)
| YFloat (repr : string)
| YStr (s : string)
| YSeq (items : list yaml)
| YMap (pairs : list (yaml * yaml)).

(** [key == k] for a string [k] *)
Definition is_str (k : string) (y : yaml) : bool :=
  match y with YStr s => String.eqb k s | _ => false end.

Fixpoint chars (s : string) : list yaml :=
  match s with
  | EmptyString => []
  | String c s' => YStr (String c EmptyString) :: chars s'
  end.

(** [k in obj] for a string [k]: key of a dict, element of a list, substring
    of a string; the other values are not iterable *)
Definition py_in (k : string) (obj : yaml) : result bool :=
  match obj with
  | YMap pairs => Ok (existsb (fun kv => is_str k (fst kv)) pairs)
  | YSeq items => Ok (existsb (is_str k) items)
  | YStr s => Ok (str_contains k s)
  | _ => Raise TypeError
  end.

Fixpoint assoc (k : string) (pairs : list (yaml * yaml)) : option yaml :=
  match pairs with
  | [] => None
  | (k', v) :: rest => if is_str k k' then Some v else assoc k rest
  end.

(** [obj[k]] for a string [k] *)
Definition py_getitem (obj : yaml) (k : string) : result yaml :=
  match obj with
  | YMap pairs =>
      match assoc k pairs with Some v => Ok v | None => Raise KeyError end
  | _ => Raise TypeError
  end.

(** [len(obj)] *)
Definition py_len (obj : yaml) : result nat :=
  match obj with
  | YMap pairs => Ok (length pairs)
  | YSeq items => Ok (length items)
  | YStr s => Ok (String.length s)
  | _ => Raise TypeError
  end.

(** [for x in obj]: the items the loop visits *)
Definition py_iter (obj : yaml) : result (list yaml) :=
  match obj with
  | YMap pairs => Ok (map fst pairs)
  | YSeq items => Ok items
  | YStr s => Ok (chars s)
  | _ => Raise TypeError
  end.

(** ** What the validator borrows from numpy, matplotlib and PyYAML *)

(** The values a contribution returns are opaque to the validator: it only
    asks numpy for their dimensionality, matplotlib's class test, and
    destructures one of them.  [heap] is whatever state the contribution module
    keeps between calls. *)
Class Runtime : Type :=
  { pyobj : Type;
    heap : Type;
    (** [np.ndim(obj)]; it may raise, for instance on a ragged nested list *)
    np_ndim : pyobj -> result nat;
    (** [isinstance(obj, Figure)] *)
    isinstance_Figure : pyobj -> bool;
    (** what an unpacking draws from a value: its items (the first three
        when there are more), or the exception drawing them raises
        ([TypeError] for a value that is not iterable) *)
    items_of : pyobj -> result (list pyobj);
    (** [yaml.safe_load] on the text of a file *)
    yaml_safe_load : string -> result yaml }.

(** ** Contribution modules, the interpreter state and the validator's monad *)

Section Validator.
Context {R : Runtime}.

(** A function of a contribution: it reads and updates the module's state and
    returns or raises.  A state change made before an exception stays. *)
Definition pyfun (A : Type) : Type := heap -> result A * heap.

(** The attributes of an imported contribution the validator touches, each
    as what looking it up gives: the attribute, or the exception the lookup
    raises ([AttributeError] for an attribute the module does not have; a
    module-level [__getattr__] may raise any other); a lookup leaves the
    state of the module alone.  [__all__] is whatever
    object the module binds to the name, a plain value like the ones of a
    parsed document: a list (or tuple) is a [YSeq], a string a [YStr].
    [forward]'s second argument is the keyword [with_jacobian], [None] when
    the caller leaves it out. *)
Record module : Type :=
  { __all__ : result yaml;
    mod_set_example_number : result (Z -> pyfun unit);
    mod_suggested_model : result (pyfun pyobj);
    mod_data : result (pyfun pyobj);
    mod_forward : result (pyobj -> option bool -> pyfun pyobj);
    mod_jacobian : result (pyobj -> pyfun pyobj);
    mod_plot_model : result (pyobj -> pyfun pyobj);
    mod_plot_data : result (pyobj -> pyfun pyobj) }.

(** One entry of the ghost trace: a call the validator made into the
    contribution, with its arguments. *)
Inductive event : Type :=
| Call_set_example_number (i : Z)
| Call_suggested_model
| Call_data
| Call_forward (model : pyobj) (with_jacobian : option bool)
| Call_jacobian (model : pyobj)
| Call_plot_model (model : pyobj)
| Call_plot_data (data : pyobj).

Record world : Type :=
  { fs : filesystem;
    sys_argv : list string;
    sys_path : list string;
    (** the import system: what a dotted name resolves to under a given
        [sys.path] *)
    import_module : list string -> string -> result module;
    state : heap;
    trace : list event }.

Definition M (A : Type) : Type := world -> result A * world.

#[export] Instance Monad_M : Monad M :=
  {| ret := fun _ a w => (Ok a, w);
     bind := fun _ _ c k w =>
       match c w with
       | (Ok a, w') => k a w'
       | (Raise e, w') => (Raise e, w')
       end |}.

Definition raise {A} (e : exn) : M A := fun w => (Raise e, w).

(** a computation that reads the world and changes nothing *)
Definition reading {A} (f : world -> result A) : M A := fun w => (f w, w).

Definition pure {A} (r : result A) : M A := fun w => (r, w).

(** [for x in l: body] *)
Fixpoint for_each {m : Type -> Type} `{Monad m} {A} (l : list A) (body : A -> m unit)
    : m unit :=
  match l with
  | [] => ret tt
  | x :: rest => body x ;; for_each rest body
  end.

(** [try: body  except NotImplementedError: pass  else: orelse] *)
Definition try_except_NotImplementedError {A}
    (body : M A) (orelse : A -> M unit) : M unit :=
  fun w =>
    match body w with
    | (Ok a, w') => orelse a w'
    | (Raise e, w') =>
        if is_NotImplementedError e then (Ok tt, w') else (Raise e, w')
    end.

(** [contrib_mod.name]: attribute access *)
Definition getattr {A} (attr : result A) : M A := pure attr.

(** Invoking a function of the contribution: the call is logged, the module
    state is updated, and the call returns or raises. *)
Definition called (w : world) (h : heap) (evs : list event) : world :=
  {| fs := fs w; sys_argv := sys_argv w; sys_path := sys_path w;
     import_module := import_module w; state := h;
     trace := (trace w ++ evs)%list |}.

Definition invoke {A} (ev : event) (f : pyfun A) : M A :=
  fun w => let (r, h) := f (state w) in (r, called w h [ev]).

Definition call_set_example_number (contrib_mod : module) (i : Z) : M unit :=
  f <- getattr (mod_set_example_number contrib_mod) ;;
  invoke (Call_set_example_number i) (f i).

Definition call_suggested_model (contrib_mod : module) : M pyobj :=
  f <- getattr (mod_suggested_model contrib_mod) ;;
  invoke Call_suggested_model f.

Definition call_data (contrib_mod : module) : M pyobj :=
  f <- getattr (mod_data contrib_mod) ;;
  invoke Call_data f.

Definition call_forward (contrib_mod : module) (model : pyobj)
    (with_jacobian : option bool) : M pyobj :=
  f <- getattr (mod_forward contrib_mod) ;;
  invoke (Call_forward model with_jacobian) (f model with_jacobian).

Definition call_jacobian (contrib_mod : module) (model : pyobj) : M pyobj :=
  f <- getattr (mod_jacobian contrib_mod) ;;
  invoke (Call_jacobian model) (f model).

Definition call_plot_model (contrib_mod : module) (model : pyobj) : M pyobj :=
  f <- getattr (mod_plot_model contrib_mod) ;;
  invoke (Call_plot_model model) (f model).

Definition call_plot_data (contrib_mod : module) (data : pyobj) : M pyobj :=
  f <- getattr (mod_plot_data contrib_mod) ;;
  invoke (Call_plot_data data) (f data).

(** [a, b = obj]: whatever the iteration raises is raised; any number of
    items other than two is a [ValueError] *)
Definition unpack2 (obj : pyobj) : M (pyobj * pyobj) :=
  match items_of obj with
  | Raise e => raise e
  | Ok [a; b] => ret (a, b)
  | Ok _ => raise ValueError
  end.

(** [sys.path.insert(i, x)] *)
Definition sys_path_insert (i : nat) (x : string) : M unit :=
  fun w =>
    (Ok tt, {| fs := fs w; sys_argv := sys_argv w;
               sys_path := list_insert i x (sys_path w);
               import_module := import_module w; state := state w;
               trace := trace w |}).

(** [__import__(name)] and [importlib.import_module(name)]: resolution under
    the current [sys.path] *)
Definition py_import (name : string) : M module :=
  reading (fun w => import_module w (sys_path w) name).

(** ** validate.py *)

Definition MODULE_NAME : string := "cofi-espresso".
Definition CONTRIB_FOLDER : string := "contrib".

Definition get_folder_content (folder_name : string)
    : M (list string * list string) :=
  names <- reading (fun w => os_listdir (fs w) folder_name) ;;
  let paths := map (fun name => folder_name ++ "/" ++ name) names in
  ret (names, paths).

Definition all_contribs : M (list (string * string)) :=
  '(names, paths) <- get_folder_content CONTRIB_FOLDER ;;
  ret (combine names paths).

(** the fixture [pre_build] *)
Definition pre_build : M bool :=
  fun w =>
    let pre_post := "pre" in
    if (1 <? length (sys_argv w))%nat then
      let pre_post := last (sys_argv w) "" in
      if negb (str_in pre_post ["pre"; "post"]) then (Raise ValueError, w)
      else (Ok (String.eqb pre_post "pre"), w)
    else (Ok (String.eqb pre_post "pre"), w).

Definition _array_like (obj : pyobj) : result bool :=
  n <- np_ndim obj ;; ret (negb (n =? 0)%nat).

(** [assert _array_like(obj)] *)
Definition assert_array_like (obj : pyobj) : result unit :=
  b <- _array_like obj ;; assert b.

(** 1 - contribution folder name matches the main Python file name;
    2 - files exist: README.md, LICENCE, metadata.yml, __init__.py *)
Definition required_files : list string :=
  ["README.md"; "LICENCE"; "metadata.yml"; "__init__.py"].

Definition check_folder (contrib_name : string) (names : list string)
    : result unit :=
  assert (str_in (contrib_name ++ ".py") names) ;;
  for_each (m := result) required_files
    (fun file => assert (str_in file names)).

(** 3 - [__all__] includes standard functions exposed to users *)
Definition load_module (pre_build : bool) (contrib_name : string) : M module :=
  if pre_build then
    sys_path_insert 1 CONTRIB_FOLDER ;;
    py_import contrib_name
  else
    py_import (MODULE_NAME ++ "." ++ contrib_name).

Definition std_funcs : list string :=
  ["set_example_number"; "suggested_model"; "data"; "forward"; "jacobian";
   "plot_model"; "plot_data"].

(** [assert k in obj] *)
Definition assert_in (k : string) (obj : yaml) : result unit :=
  b <- py_in k obj ;; assert b.

Definition check_exports (contrib_mod : module) : result unit :=
  for_each (m := result) std_funcs (fun fn =>
    all <- __all__ contrib_mod ;;
    assert_in fn all).

(** 4 - functions are defined: set_example_number, suggested_model, data,
    forward *)
Definition required_functions (contrib_mod : module) : M (pyobj * pyobj) :=
  call_set_example_number contrib_mod 0 ;;
  _model <- call_suggested_model contrib_mod ;;
  _data <- call_data contrib_mod ;;
  _synthetics <- call_forward contrib_mod _model None ;;
  pure (assert_array_like _model) ;;
  pure (assert_array_like _data) ;;
  pure (assert_array_like _synthetics) ;;
  ret (_model, _data).

(** 5 - optional functions have correct signatures *)
Definition probe_forward_with_jacobian (contrib_mod : module) (_model : pyobj)
    : M unit :=
  try_except_NotImplementedError
    (r <- call_forward contrib_mod _model (Some true) ;; unpack2 r)
    (fun '(_synthetics, _jacobian) =>
       pure (assert_array_like _synthetics) ;;
       pure (assert_array_like _jacobian)).

Definition probe_jacobian (contrib_mod : module) (_model : pyobj) : M unit :=
  try_except_NotImplementedError
    (call_jacobian contrib_mod _model)
    (fun _jacobian => pure (assert_array_like _jacobian)).

Definition probe_plot_model (contrib_mod : module) (_model : pyobj) : M unit :=
  try_except_NotImplementedError
    (call_plot_model contrib_mod _model)
    (fun _fig_model => pure (assert (isinstance_Figure _fig_model))).

Definition probe_plot_data (contrib_mod : module) (_data : pyobj) : M unit :=
  try_except_NotImplementedError
    (call_plot_data contrib_mod _data)
    (fun _fig_data => pure (assert (isinstance_Figure _fig_data))).

Definition optional_functions (contrib_mod : module) (_model _data : pyobj)
    : M unit :=
  probe_forward_with_jacobian contrib_mod _model ;;
  probe_jacobian contrib_mod _model ;;
  probe_plot_model contrib_mod _model ;;
  probe_plot_data contrib_mod _data.

(** 6 - metadata.yml can be parsed and has necessary keys *)
Definition load_metadata (contrib_sub_folder : string) : M yaml :=
  stream <- reading (fun w =>
    open_r (fs w) (contrib_sub_folder ++ "/metadata.yml")) ;;
  pure (yaml_safe_load stream).

(** the required keys and the example records; returns [n_examples] *)
Definition check_required_keys (meta_data : yaml) : result nat :=
  for_each (m := result) ["name"; "short_description"; "authors"; "examples"]
    (fun k => assert_in k meta_data) ;;
  examples <- py_getitem meta_data "examples" ;;
  n_examples <- py_len examples ;;
  examples <- py_getitem meta_data "examples" ;;
  records <- py_iter examples ;;
  for_each (m := result) records (fun example =>
    assert_in "description" example ;;
    assert_in "model_dimension" example ;;
    assert_in "data_dimension" example) ;;
  ret n_examples.

(** the optional sections: citation, contacts, extra_websites *)
Definition check_optional_sections (meta_data : yaml) : result unit :=
  has_citation <- py_in "citation" meta_data ;;
  (if has_citation : bool then
     citation <- py_getitem meta_data "citation" ;;
     assert_in "doi" citation
   else ret tt) ;;
  has_contacts <- py_in "contacts" meta_data ;;
  (if has_contacts : bool then
     contacts <- py_getitem meta_data "contacts" ;;
     records <- py_iter contacts ;;
     for_each (m := result) records (fun contact =>
       assert_in "name" contact ;;
       assert_in "email" contact)
   else ret tt) ;;
  has_websites <- py_in "extra_websites" meta_data ;;
  (if has_websites : bool then
     websites <- py_getitem meta_data "extra_websites" ;;
     records <- py_iter websites ;;
     for_each (m := result) records (fun website =>
       assert_in "name" website ;;
       assert_in "link" website)
   else ret tt).

Definition check_metadata (meta_data : yaml) : result nat :=
  n_examples <- check_required_keys meta_data ;;
  check_optional_sections meta_data ;;
  ret n_examples.

(** 7 - enough number of examples as documented in metadata.yml *)
Definition range (n : nat) : list nat := seq 0 n.

Definition check_examples (contrib_mod : module) (n_examples : nat) : M unit :=
  for_each (range n_examples) (fun i =>
    call_set_example_number contrib_mod (Z.of_nat i)).

(** 8 - LICENCE file not empty *)
Definition check_licence (contrib_sub_folder : string) : M unit :=
  st_size <- reading (fun w =>
    os_stat_st_size (fs w) (contrib_sub_folder ++ "/LICENCE")) ;;
  pure (assert (negb (st_size =? 0)%nat)).

(** [test_contrib], in the order of its numbered checks.  The first three
    produce the imported module, the next two exercise it. *)
Definition load_contrib (contrib : string * string) (pre_build : bool)
    : M module :=
  let '(contrib_name, contrib_sub_folder) := contrib in
  '(names, paths) <- get_folder_content contrib_sub_folder ;;
  pure (check_folder contrib_name names) ;;
  contrib_mod <- load_module pre_build contrib_name ;;
  pure (check_exports contrib_mod) ;;
  ret contrib_mod.

Definition probe_contrib (contrib_mod : module) : M unit :=
  '(_model, _data) <- required_functions contrib_mod ;;
  optional_functions contrib_mod _model _data.

Definition test_contrib (contrib : string * string) (pre_build : bool)
    : M unit :=
  let '(contrib_name, contrib_sub_folder) := contrib in
  contrib_mod <- load_contrib contrib pre_build ;;
  probe_contrib contrib_mod ;;
  meta_data <- load_metadata contrib_sub_folder ;;
  n_examples <- pure (check_metadata meta_data) ;;
  check_examples contrib_mod n_examples ;;
  check_licence contrib_sub_folder.

(** ** The pytest run started by [main]

    Collecting the module evaluates [all_contribs()] for the parameters of the
    fixture [contrib]; each parameter is one test item.  An item first sets up
    the fixture [pre_build], then runs the body of [test_contrib]; whatever an
    item raises is recorded and the run goes on with the next item.  With no
    parameter at all pytest makes a single item, [test_contrib[NOTSET]], and
    skips it: neither the fixture nor the body runs. *)
Definition run_item (contrib : string * string) : M unit :=
  pre <- pre_build ;;
  test_contrib contrib pre.

Fixpoint run_items (contribs : list (string * string)) (w : world)
    : list (result unit) * world :=
  match contribs with
  | [] => ([], w)
  | contrib :: rest =>
      let (r, w1) := run_item contrib w in
      let (rs, w2) := run_items rest w1 in
      (r :: rs, w2)
  end.

Inductive report : Type :=
| Ran (outcome : result unit)
| Skipped.

Definition main : M (list report) :=
  fun w =>
    match all_contribs w with
    | (Ok [], w1) => (Ok [Skipped], w1)
    | (Ok contribs, w1) =>
        let (rs, w2) := run_items contribs w1 in (Ok (map Ran rs), w2)
    | (Raise e, w1) => (Raise e, w1)
    end.

End Validator.

(** * A concrete runtime and concrete contributions

    The worlds the statements below are run on: values that are scalars,
    arrays known by their shape, tuples or figures; a contribution [gravity]
    that implements the four required functions for two examples and raises
    [NotImplementedError] in the optional ones; and the contribution
    [magnetotelluric_1D] with the export list of its [__init__.py]. *)

Module Demo.

Inductive val : Type :=
| VNone
| VNum (z : Z)
| VArray (shape : list nat)
| VTuple (items : list val)
| VFigure.

Definition same_shape (s s' : list nat) : bool :=
  if list_eq_dec Nat.eq_dec s s' then true else false.

(** numpy's shape discovery; a ragged tuple raises (numpy 1.24 and later) *)
Fixpoint shape_of (v : val) : result (list nat) :=
  match v with
  | VArray shape => Ok shape
  | VTuple items =>
      let shapes :=
        (fix shapes (l : list val) : result (list (list nat)) :=
           match l with
           | [] => Ok []
           | x :: rest =>
               match shape_of x, shapes rest with
               | Ok s, Ok ss => Ok (s :: ss)
               | Raise e, _ => Raise e
               | _, Raise e => Raise e
               end
           end) items in
      match shapes with
      | Ok [] => Ok [0%nat]
      | Ok (s :: rest) =>
          if forallb (same_shape s) rest then Ok (length items :: s)
          else Raise ValueError
      | Raise e => Raise e
      end
  | _ => Ok []
  end.

(** The metadata documents used below, and their parse. *)
Definition example_record : yaml :=
  YMap [(YStr "description", YStr "a slab");
        (YStr "model_dimension", YInt 3);
        (YStr "data_dimension", YInt 5)].

Definition fields_without_model_dimension : list (yaml * yaml) :=
  [(YStr "description", YStr "a sphere");
   (YStr "data_dimension", YInt 5)].

Definition record_without_model_dimension : yaml :=
  YMap fields_without_model_dimension.

Definition metadata_of (examples : list yaml) : list (yaml * yaml) :=
  [(YStr "name", YStr "gravity");
   (YStr "short_description", YStr "gravity of a slab");
   (YStr "authors", YSeq [YStr "A. Author"]);
   (YStr "examples", YSeq examples)].

Definition documents : list (string * yaml) :=
  [("two examples", YMap (metadata_of [example_record; example_record]));
   ("no example", YMap (metadata_of []));
   ("no model_dimension",
    YMap (metadata_of [example_record; record_without_model_dimension]))].

Fixpoint lookup {A} (k : string) (l : list (string * A)) : option A :=
  match l with
  | [] => None
  | (k', v) :: rest => if String.eqb k k' then Some v else lookup k rest
  end.

(** stands for PyYAML on the three documents above *)
Definition safe_load (text : string) : result yaml :=
  match lookup text documents with
  | Some doc => Ok doc
  | None => Raise YAMLError
  end.

(** a tuple gives its items, an array its slices along the first axis; a
    0-d array and the other values are not iterable *)
Definition items (v : val) : result (list val) :=
  match v with
  | VTuple items => Ok items
  | VArray (n :: shape) => Ok (repeat (VArray shape) n)
  | _ => Raise TypeError
  end.

#[export] Instance runtime : Runtime :=
  {| pyobj := val;
     heap := Z;
     np_ndim := fun v => s <- shape_of v ;; ret (length s);
     isinstance_Figure := fun v => match v with VFigure => true | _ => false end;
     items_of := items;
     yaml_safe_load := safe_load |}.

Definition not_implemented {A} : pyfun A :=
  fun h => (Raise NotImplementedError, h).

(** the state of [gravity] is the number of the selected example *)
Definition gravity : module :=
  {| __all__ := Ok (YSeq (map YStr std_funcs));
     mod_set_example_number := Ok (fun i h =>
       if ((0 <=? i) && (i <? 2))%Z then (Ok tt, i) else (Raise ValueError, h));
     mod_suggested_model := Ok (fun h => (Ok (VArray [3%nat]), h));
     mod_data := Ok (fun h => (Ok (VArray [5%nat]), h));
     mod_forward := Ok (fun m wj h =>
       match wj with
       | Some true => (Raise NotImplementedError, h)
       | _ => (Ok (VArray [5%nat]), h)
       end);
     mod_jacobian := Ok (fun _ => not_implemented);
     mod_plot_model := Ok (fun _ => not_implemented);
     mod_plot_data := Ok (fun _ => not_implemented) |}.

(** [gravity] with a [suggested_model] that returns a bare number *)
Definition flat : module :=
  {| __all__ := __all__ gravity;
     mod_set_example_number := mod_set_example_number gravity;
     mod_suggested_model := Ok (fun h => (Ok (VNum 7), h));
     mod_data := mod_data gravity;
     mod_forward := mod_forward gravity;
     mod_jacobian := mod_jacobian gravity;
     mod_plot_model := mod_plot_model gravity;
     mod_plot_data := mod_plot_data gravity |}.

(** contrib/magnetotelluric_1D/__init__.py: [__all__ = ["Magnetotelluric1D"]] *)
Definition magnetotelluric_1D : module :=
  {| __all__ := Ok (YSeq [YStr "Magnetotelluric1D"]);
     mod_set_example_number := Raise AttributeError;
     mod_suggested_model := Raise AttributeError;
     mod_data := Raise AttributeError;
     mod_forward := Raise AttributeError;
     mod_jacobian := Raise AttributeError;
     mod_plot_model := Raise AttributeError;
     mod_plot_data := Raise AttributeError |}.

Definition folder_of (name : string) : list string :=
  [name ++ ".py"; "README.md"; "LICENCE"; "metadata.yml"; "__init__.py"].

(** a tree with the given entries under [contrib], [gravity] with the given
    metadata and licence *)
Definition files (root : list string) (metadata licence : string)
    : filesystem :=
  fun path => lookup path
    [("contrib", Dir root 4096);
     ("contrib/README.md", File "# Contributions");
     ("contrib/gravity", Dir (folder_of "gravity") 4096);
     ("contrib/gravity/metadata.yml", File metadata);
     ("contrib/gravity/LICENCE", File licence);
     ("contrib/magnetotelluric_1D", Dir (folder_of "magnetotelluric_1D") 4096);
     ("contrib/magnetotelluric_1D/metadata.yml", File "two examples");
     ("contrib/magnetotelluric_1D/LICENCE", File "MIT")].

Definition importer (path : list string) (name : string) : result module :=
  if str_in "contrib" path then
    if String.eqb name "gravity" then Ok gravity
    else if String.eqb name "magnetotelluric_1D" then Ok magnetotelluric_1D
    else Raise ModuleNotFoundError
  else Raise ModuleNotFoundError.

Definition start (root : list string) (metadata licence : string)
    (argv : list string) : world :=
  {| fs := files root metadata licence;
     sys_argv := argv;
     sys_path := [""; "/usr/lib/python3"];
     import_module := importer;
     state := 0%Z;
     trace := [] |}.

Definition the_gravity : string * string := ("gravity", "contrib/gravity").

(** [gravity] alone, two examples, validated with no argument *)
Definition w0 : world := start ["gravity"] "two examples" "MIT" ["validate.py"].

(** the worlds a run from [w0] goes through *)
Definition w3 : world := snd (load_contrib the_gravity true w0).
Definition w3a : world := snd (call_set_example_number gravity 0 w3).
Definition w3b : world := snd (call_suggested_model gravity w3a).
Definition w3c : world := snd (call_data gravity w3b).
Definition w4 : world := snd (call_forward gravity (VArray [3%nat]) None w3c).
Definition w5 : world := snd (probe_contrib gravity w3).

(** the same run with other metadata, or an empty licence *)
Definition w0_no_example : world :=
  start ["gravity"] "no example" "MIT" ["validate.py"; "pre"].
Definition w0_bad_record : world :=
  start ["gravity"] "no model_dimension" "MIT" ["validate.py"].
Definition w0_empty_licence : world :=
  start ["gravity"] "two examples" "" ["validate.py"].

(** an argument that is neither [pre] nor [post] *)
Definition w0_both : world :=
  start ["gravity"] "two examples" "MIT" ["validate.py"; "both"].

(** a plain file next to the contribution *)
Definition w0_with_file : world :=
  start ["README.md"; "gravity"] "two examples" "MIT" ["validate.py"].

(** two contributions *)
Definition the_magnetotelluric_1D : string * string :=
  ("magnetotelluric_1D", "contrib/magnetotelluric_1D").

Definition w0_two : world :=
  start ["gravity"; "magnetotelluric_1D"] "two examples" "MIT"
    ["validate.py"; "pre"].

(** [gravity] with its [data] left unimplemented *)
Definition unfinished : module :=
  {| __all__ := __all__ gravity;
     mod_set_example_number := mod_set_example_number gravity;
     mod_suggested_model := mod_suggested_model gravity;
     mod_data := Ok not_implemented;
     mod_forward := mod_forward gravity;
     mod_jacobian := mod_jacobian gravity;
     mod_plot_model := mod_plot_model gravity;
     mod_plot_data := mod_plot_data gravity |}.

(** [gravity] with a [forward] that returns three parts when asked for the
    jacobian *)
Definition three_parts : val :=
  VTuple [VArray [5%nat]; VArray [5%nat; 3%nat]; VNum 0].

Definition triple : module :=
  {| __all__ := __all__ gravity;
     mod_set_example_number := mod_set_example_number gravity;
     mod_suggested_model := mod_suggested_model gravity;
     mod_data := mod_data gravity;
     mod_forward := Ok (fun m wj h =>
       match wj with
       | Some true => (Ok three_parts, h)
       | _ => (Ok (VArray [5%nat]), h)
       end);
     mod_jacobian := mod_jacobian gravity;
     mod_plot_model := mod_plot_model gravity;
     mod_plot_data := mod_plot_data gravity |}.

(** a world over any tree of files *)
Definition tree (nodes : list (string * node)) : filesystem :=
  fun path => lookup path nodes.

Definition world_of (files : filesystem) (argv : list string) : world :=
  {| fs := files;
     sys_argv := argv;
     sys_path := [""; "/usr/lib/python3"];
     import_module := importer;
     state := 0%Z;
     trace := [] |}.

(** [gravity] without its LICENCE *)
Definition folder_without_licence : list string :=
  ["gravity.py"; "README.md"; "metadata.yml"; "__init__.py"].

Definition w0_no_licence : world :=
  world_of (tree [("contrib", Dir ["gravity"] 4096);
                  ("contrib/gravity", Dir folder_without_licence 4096)])
    ["validate.py"].

(** a contribution the import system does not know *)
Definition the_seismic : string * string := ("seismic", "contrib/seismic").

Definition w0_unknown : world :=
  world_of (tree [("contrib", Dir ["seismic"] 4096);
                  ("contrib/seismic", Dir (folder_of "seismic") 4096)])
    ["validate.py"].

(** a metadata file PyYAML rejects *)
Definition w0_not_yaml : world :=
  start ["gravity"] "name: [" "MIT" ["validate.py"].

(** several arguments, the last one [post] *)
Definition w0_many_arguments : world :=
  start ["gravity"] "two examples" "MIT" ["validate.py"; "bogus"; "post"].

Definition w0_post : world :=
  start ["gravity"] "two examples" "MIT" ["validate.py"; "post"].

(** no [contrib] folder at all *)
Definition w0_no_root : world := world_of (tree []) ["validate.py"].

(** [gravity] with a module-level [__getattr__] that raises
    [NotImplementedError] for [jacobian] *)
Definition lazy : module :=
  {| __all__ := __all__ gravity;
     mod_set_example_number := mod_set_example_number gravity;
     mod_suggested_model := mod_suggested_model gravity;
     mod_data := mod_data gravity;
     mod_forward := mod_forward gravity;
     mod_jacobian := Raise NotImplementedError;
     mod_plot_model := mod_plot_model gravity;
     mod_plot_data := mod_plot_data gravity |}.

(** [gravity] with a string for export list; [data] is not in it but for
    the end of [plot_data] *)
Definition names_in_a_string : string :=
  "set_example_number suggested_model forward jacobian plot_model plot_data".

Definition stringly : module :=
  {| __all__ := Ok (YStr names_in_a_string);
     mod_set_example_number := mod_set_example_number gravity;
     mod_suggested_model := mod_suggested_model gravity;
     mod_data := mod_data gravity;
     mod_forward := mod_forward gravity;
     mod_jacobian := mod_jacobian gravity;
     mod_plot_model := mod_plot_model gravity;
     mod_plot_data := mod_plot_data gravity |}.

(** metadata with every optional section *)
Definition full_metadata : list (yaml * yaml) :=
  [(YStr "name", YStr "gravity");
   (YStr "short_description", YStr "gravity of a slab");
   (YStr "authors", YSeq [YStr "A. Author"]);
   (YStr "examples", YSeq [example_record]);
   (YStr "citation", YMap [(YStr "doi", YStr "10.1000/182")]);
   (YStr "contacts",
    YSeq [YMap [(YStr "name", YStr "A. Author");
                (YStr "email", YStr "a@example.org")]]);
   (YStr "extra_websites",
    YSeq [YMap [(YStr "name", YStr "home");
                (YStr "link", YStr "https://example.org")]])].

End Demo.

(** * Vocabulary of the statements *)

Section Vocabulary.
Context {R : Runtime}.

(** ** What a computation leaves alone

    [keeps rel c]: the world after [c] is related by [rel] to the world
    before, for a reflexive and transitive [rel]. *)

Definition keeps (rel : world -> world -> Prop) {A} (c : M A) : Prop :=
  forall w, rel w (snd (c w)).

(** the file system, the command line and the import system *)
Definition same_env (w w' : world) : Prop :=
  fs w' = fs w /\ sys_argv w' = sys_argv w /\
  import_module w' = import_module w.

(** [sys.path] *)
Definition same_path (w w' : world) : Prop := sys_path w' = sys_path w.


(** the three results of the required functions are array-like *)
Definition all_array_like (_model _data _synthetics : pyobj) : Prop :=
  _array_like _model = Ok true /\ _array_like _data = Ok true /\
  _array_like _synthetics = Ok true.

(** the contracts of the optional functions *)
Definition two_array_likes (v : pyobj) : Prop :=
  exists a b,
    items_of v = Ok [a; b] /\
    _array_like a = Ok true /\ _array_like b = Ok true.

Definition array_like (v : pyobj) : Prop := _array_like v = Ok true.

Definition figure (v : pyobj) : Prop := isinstance_Figure v = true.

(** what the probe of [forward(model, with_jacobian=True)] accepts of a
    returned value: two array-likes, or an unpacking that raises
    [NotImplementedError] inside the [try] *)
Definition unpacks_to_two_array_likes (v : pyobj) : Prop :=
  items_of v = Raise NotImplementedError \/ two_array_likes v.

(** what the probe of [forward(model, with_jacobian=True)] does with a
    returned value: the unpacking, inside the [try], then the two
    assertions *)
Definition check_two_parts (v : pyobj) : result unit :=
  match items_of v with
  | Ok [a; b] => assert_array_like a ;; assert_array_like b
  | Ok _ => Raise ValueError
  | Raise e => if is_NotImplementedError e then Ok tt else Raise e
  end.

(** What is stated of each optional probe, run from [w]; [attr] is the lookup
    of the function in the module, [run f] the call the probe makes of it and
    [ev] the entry of that call in the trace.

    When the lookup raises, nothing is called: [NotImplementedError] lets the
    probe pass, any other exception is raised.  When the lookup returns [f],
    the probe runs [f] on the state of the module and leaves the world as that
    call left it; it passes exactly when the call raised
    [NotImplementedError] or returned a value the probe accepts, and raises in
    every other case, with the exception of the call when the call raised. *)
Definition probe_law {F A} (probe : M unit) (attr : result F)
    (run : F -> pyfun A) (ev : event) (accepts : A -> Prop) (w : world)
    : Prop :=
  (forall e,
     attr = Raise e ->
     probe w = (if is_NotImplementedError e then Ok tt else Raise e, w)) /\
  (forall f,
     attr = Ok f ->
     snd (probe w) = called w (snd (run f (state w))) [ev] /\
     (fst (probe w) = Ok tt <->
      fst (run f (state w)) = Raise NotImplementedError \/
      exists v, fst (run f (state w)) = Ok v /\ accepts v) /\
     (~ (fst (run f (state w)) = Raise NotImplementedError \/
         exists v, fst (run f (state w)) = Ok v /\ accepts v) ->
      exists e, fst (probe w) = Raise e) /\
     (forall e,
        fst (run f (state w)) = Raise e -> e <> NotImplementedError ->
        fst (probe w) = Raise e)).

(** The optional probes as the specification words them, on [jacobian]: the
    probe passes only when the function was called and either raised
    [NotImplementedError] or returned an array-like. *)
Definition passes_only_on_a_call (m : module) (x : pyobj) (w : world) : Prop :=
  fst (probe_jacobian m x w) = Ok tt ->
  exists f,
    mod_jacobian m = Ok f /\
    (fst (f x (state w)) = Raise NotImplementedError \/
     exists v, fst (f x (state w)) = Ok v /\ array_like v).

(** The export-list check as the specification words it: it passes exactly
    when the items of the export list include the seven standard names. *)
Definition exports_include_std_funcs (m : module) : Prop :=
  exists all names,
    __all__ m = Ok all /\ py_iter all = Ok names /\
    forall fn, In fn std_funcs -> In (YStr fn) names.

Definition passes_iff_exports_include_std_funcs (m : module) : Prop :=
  check_exports m = Ok tt <-> exports_include_std_funcs m.

(** The calls of check 7 for [k] examples, in the order they are made. *)
Definition example_calls (k : nat) : list event :=
  map (fun i => Call_set_example_number (Z.of_nat i)) (range k).

(** The module state after [set_example_number(0)], ...,
    [set_example_number(k-1)] were called in turn from state [h], and what the
    call for example [i] does when its turn comes. *)
Fixpoint heap_after (f : Z -> pyfun unit) (k : nat) (h : heap) : heap :=
  match k with
  | O => h
  | S k' => snd (f (Z.of_nat k') (heap_after f k' h))
  end.

Definition outcome_of_call (f : Z -> pyfun unit) (h : heap) (i : nat)
    : result unit :=
  fst (f (Z.of_nat i) (heap_after f i h)).

(** checks 1 to 5: everything [test_contrib] does before it opens the
    metadata file *)
Definition before_metadata (contrib : string * string) (pre_build : bool)
    : M unit :=
  contrib_mod <- load_contrib contrib pre_build ;;
  probe_contrib contrib_mod.

(** Discovery as the specification words it: whatever becomes a
    contribution is a folder. *)
Definition discovers_only_subfolders (w : world) : Prop :=
  forall contribs contrib,
    fst (all_contribs w) = Ok contribs ->
    In contrib contribs ->
    exists entries st_size, fs w (snd contrib) = Some (Dir entries st_size).

(** [sys.path] after a run in pre-packaging mode, as the specification
    words it: one insertion, whatever the number of contributions. *)
Definition inserts_once_per_run (w : world) : Prop :=
  fst (pre_build w) = Ok true ->
  sys_path (snd (main w)) = list_insert 1 CONTRIB_FOLDER (sys_path w).

(** a contribution whose folder passes checks 1 and 2 *)
Definition layout_ok (files : filesystem) (contrib : string * string) : bool :=
  match os_listdir files (snd contrib) with
  | Ok names => is_Ok (check_folder (fst contrib) names)
  | Raise _ => false
  end.



(** [sys.path] and the dotted name under which check 3 imports a
    contribution *)
Definition import_path (pre_build : bool) (w : world) : list string :=
  if pre_build then list_insert 1 CONTRIB_FOLDER (sys_path w) else sys_path w.

Definition import_name (pre_build : bool) (contrib_name : string) : string :=
  if pre_build then contrib_name else MODULE_NAME ++ "." ++ contrib_name.

End Vocabulary.

(** * Properties *)

Section Properties.
Context {R : Runtime}.

(** ** Running the monad *)

Lemma run_bind {A B} (c : M A) (k : A -> M B) (w : world) :
  (x <- c ;; k x) w =
  match c w with
  | (Ok a, w') => k a w'
  | (Raise e, w') => (Raise e, w')
  end.
Proof. reflexivity. Qed.

Lemma run_bind_Ok {A B} (c : M A) (k : A -> M B) w a w' :
  c w = (Ok a, w') -> (x <- c ;; k x) w = k a w'.
Proof. intros E. rewrite run_bind, E. reflexivity. Qed.

Lemma run_bind_Raise {A B} (c : M A) (k : A -> M B) w e w' :
  c w = (Raise e, w') -> (x <- c ;; k x) w = (Raise e, w').
Proof. intros E. rewrite run_bind, E. reflexivity. Qed.

Lemma run_bind_Ok_inv {A B} (c : M A) (k : A -> M B) w b w' :
  (x <- c ;; k x) w = (Ok b, w') ->
  exists a w1, c w = (Ok a, w1) /\ k a w1 = (Ok b, w').
Proof.
  rewrite run_bind. destruct (c w) as [[a | e] w1]; intros E.
  - exists a, w1. split; [reflexivity | exact E].
  - discriminate E.
Qed.

Lemma run_pure {A} (r : result A) w : pure r w = (r, w).
Proof. reflexivity. Qed.

Lemma called_called w h evs h' evs' :
  called (called w h evs) h' evs' = called w h' (evs ++ evs')%list.
Proof. unfold called. simpl. rewrite <- app_assoc. reflexivity. Qed.

Section Keeps.
Variable rel : world -> world -> Prop.
Hypothesis rel_refl : forall w, rel w w.
Hypothesis rel_trans : forall w1 w2 w3, rel w1 w2 -> rel w2 w3 -> rel w1 w3.

Lemma keeps_ret {A} (a : A) : keeps rel (ret a : M A).
Proof. intros w. apply rel_refl. Qed.

Lemma keeps_pure {A} (r : result A) : keeps rel (pure r).
Proof. intros w. apply rel_refl. Qed.

Lemma keeps_reading {A} (f : world -> result A) : keeps rel (reading f).
Proof. intros w. apply rel_refl. Qed.

Lemma keeps_bind {A B} (c : M A) (k : A -> M B) :
  keeps rel c -> (forall a, keeps rel (k a)) -> keeps rel (x <- c ;; k x).
Proof.
  intros Hc Hk w. rewrite run_bind. specialize (Hc w).
  destruct (c w) as [[a | e] w1]; simpl in *.
  - eapply rel_trans; [exact Hc | apply Hk].
  - exact Hc.
Qed.

Lemma keeps_for_each {A} (l : list A) (body : A -> M unit) :
  (forall a, keeps rel (body a)) -> keeps rel (for_each l body).
Proof.
  intros Hb. induction l as [| x l IH]; simpl.
  - apply keeps_ret.
  - apply keeps_bind; [apply Hb | intros _; exact IH].
Qed.

Lemma keeps_try {A} (body : M A) (orelse : A -> M unit) :
  keeps rel body -> (forall a, keeps rel (orelse a)) ->
  keeps rel (try_except_NotImplementedError body orelse).
Proof.
  intros Hb Ho w. unfold try_except_NotImplementedError. specialize (Hb w).
  destruct (body w) as [[a | e] w1]; simpl in *.
  - eapply rel_trans; [exact Hb | apply Ho].
  - destruct (is_NotImplementedError e); exact Hb.
Qed.

Ltac keeps_step :=
  first [ apply keeps_ret | apply keeps_pure | apply keeps_reading
        | apply keeps_bind; [| intros ?] ].

(** calls into the contribution *)
Hypothesis rel_called : forall w h evs, rel w (called w h evs).

Lemma keeps_invoke {A} (ev : event) (f : pyfun A) : keeps rel (invoke ev f).
Proof.
  intros w. unfold invoke. destruct (f (state w)) as [r h]. apply rel_called.
Qed.

Lemma keeps_getattr {A} (attr : result A) : keeps rel (getattr attr).
Proof. apply keeps_pure. Qed.

Ltac keeps_call :=
  intros; apply keeps_bind; [apply keeps_getattr | intros; apply keeps_invoke].

Lemma keeps_call_set_example_number m i :
  keeps rel (call_set_example_number m i).
Proof. keeps_call. Qed.

Lemma keeps_call_suggested_model m : keeps rel (call_suggested_model m).
Proof. keeps_call. Qed.

Lemma keeps_call_data m : keeps rel (call_data m).
Proof. keeps_call. Qed.

Lemma keeps_call_forward m x wj : keeps rel (call_forward m x wj).
Proof. keeps_call. Qed.

Lemma keeps_call_jacobian m x : keeps rel (call_jacobian m x).
Proof. keeps_call. Qed.

Lemma keeps_call_plot_model m x : keeps rel (call_plot_model m x).
Proof. keeps_call. Qed.

Lemma keeps_call_plot_data m x : keeps rel (call_plot_data m x).
Proof. keeps_call. Qed.

Lemma keeps_unpack2 v : keeps rel (unpack2 v).
Proof.
  unfold unpack2. destruct (items_of v) as [[| a [| b [| c l]]] | e];
    intros w; apply rel_refl.
Qed.

Lemma keeps_required_functions m : keeps rel (required_functions m).
Proof.
  unfold required_functions.
  apply keeps_bind; [apply keeps_call_set_example_number | intros _].
  apply keeps_bind; [apply keeps_call_suggested_model | intros x].
  apply keeps_bind; [apply keeps_call_data | intros d].
  apply keeps_bind; [apply keeps_call_forward | intros y].
  repeat keeps_step.
Qed.

Lemma keeps_optional_functions m x d : keeps rel (optional_functions m x d).
Proof.
  unfold optional_functions.
  apply keeps_bind; [| intros _; apply keeps_bind;
                       [| intros _; apply keeps_bind; [| intros _]]].
  - apply keeps_try.
    + apply keeps_bind; [apply keeps_call_forward | apply keeps_unpack2].
    + intros [a b]. repeat keeps_step.
  - apply keeps_try; [apply keeps_call_jacobian | intros; apply keeps_pure].
  - apply keeps_try; [apply keeps_call_plot_model | intros; apply keeps_pure].
  - apply keeps_try; [apply keeps_call_plot_data | intros; apply keeps_pure].
Qed.

Lemma keeps_probe_contrib m : keeps rel (probe_contrib m).
Proof.
  unfold probe_contrib.
  apply keeps_bind; [apply keeps_required_functions | intros [x d]].
  apply keeps_optional_functions.
Qed.

Lemma keeps_check_examples m n : keeps rel (check_examples m n).
Proof.
  apply keeps_for_each. intros i. apply keeps_call_set_example_number.
Qed.

Lemma keeps_load_metadata sub : keeps rel (load_metadata sub).
Proof. unfold load_metadata. repeat keeps_step. Qed.

Lemma keeps_check_licence sub : keeps rel (check_licence sub).
Proof. unfold check_licence. repeat keeps_step. Qed.

Lemma keeps_get_folder_content folder : keeps rel (get_folder_content folder).
Proof.
  unfold get_folder_content. repeat keeps_step.
Qed.

(** the import of the contribution *)
Hypothesis rel_load : forall pb name, keeps rel (load_module pb name).

Lemma keeps_load_contrib c pb : keeps rel (load_contrib c pb).
Proof.
  destruct c as [name sub]. unfold load_contrib.
  apply keeps_bind; [apply keeps_get_folder_content | intros [names paths]].
  apply keeps_bind; [apply keeps_pure | intros _].
  apply keeps_bind; [apply rel_load | intros m].
  repeat keeps_step.
Qed.

Lemma keeps_test_contrib c pb : keeps rel (test_contrib c pb).
Proof.
  destruct c as [name sub]. unfold test_contrib.
  apply keeps_bind; [apply keeps_load_contrib | intros m].
  apply keeps_bind; [apply keeps_probe_contrib | intros _].
  apply keeps_bind; [apply keeps_load_metadata | intros doc].
  apply keeps_bind; [apply keeps_pure | intros n].
  apply keeps_bind; [apply keeps_check_examples | intros _].
  apply keeps_check_licence.
Qed.

End Keeps.

Lemma same_env_refl w : same_env w w.
Proof. repeat split. Qed.

Lemma same_env_trans w1 w2 w3 :
  same_env w1 w2 -> same_env w2 w3 -> same_env w1 w3.
Proof.
  intros (A1 & B1 & C1) (A2 & B2 & C2). repeat split; congruence.
Qed.

Lemma same_env_called w h evs : same_env w (called w h evs).
Proof. repeat split. Qed.

Lemma same_env_load pb name : keeps same_env (load_module pb name).
Proof.
  intros w. unfold load_module. destruct pb; repeat split.
Qed.

Lemma same_path_refl w : same_path w w.
Proof. reflexivity. Qed.

Lemma same_path_trans w1 w2 w3 :
  same_path w1 w2 -> same_path w2 w3 -> same_path w1 w3.
Proof. unfold same_path. congruence. Qed.

Lemma same_path_called w h evs : same_path w (called w h evs).
Proof. reflexivity. Qed.



(** The validator never touches the file system, the command line or the
    import system. *)
Lemma test_contrib_same_env c pb : keeps same_env (test_contrib c pb).
Proof.
  apply keeps_test_contrib.
  - exact same_env_refl.
  - exact same_env_trans.
  - exact same_env_called.
  - exact same_env_load.
Qed.

(** ** Required functions *)

Lemma array_like_ndim v :
  _array_like v = Ok true <-> exists n, np_ndim v = Ok (S n).
Proof.
  unfold _array_like. simpl. destruct (np_ndim v) as [[| n] | e]; simpl; split.
  - discriminate.
  - intros [n E]. discriminate E.
  - intros _. exists n. reflexivity.
  - reflexivity.
  - discriminate.
  - intros [n E]. discriminate E.
Qed.

Lemma assert_array_like_Ok v :
  assert_array_like v = Ok tt <-> _array_like v = Ok true.
Proof.
  unfold assert_array_like. simpl.
  destruct (_array_like v) as [[|] | e]; simpl; split;
    intros E; try reflexivity; discriminate E.
Qed.

Lemma assert_array_like_cases v :
  (assert_array_like v = Ok tt /\ _array_like v = Ok true) \/
  (exists e, assert_array_like v = Raise e /\ _array_like v <> Ok true).
Proof.
  unfold assert_array_like. simpl.
  destruct (_array_like v) as [[|] | e]; simpl.
  - left. split; reflexivity.
  - right. exists AssertionError. split; [reflexivity | discriminate].
  - right. exists e. split; [reflexivity | discriminate].
Qed.

(** What [required_functions] does once its four calls have returned. *)
Lemma required_functions_after_calls m w w1 w2 w3 w4 x d y :
  call_set_example_number m 0 w = (Ok tt, w1) ->
  call_suggested_model m w1 = (Ok x, w2) ->
  call_data m w2 = (Ok d, w3) ->
  call_forward m x None w3 = (Ok y, w4) ->
  required_functions m w =
  ((assert_array_like x ;; assert_array_like d ;; assert_array_like y ;;
    ret (x, d)) : result _, w4).
Proof.
  intros H1 H2 H3 H4. unfold required_functions.
  rewrite (run_bind_Ok _ _ _ _ _ H1), (run_bind_Ok _ _ _ _ _ H2),
    (run_bind_Ok _ _ _ _ _ H3), (run_bind_Ok _ _ _ _ _ H4).
  rewrite !run_bind, !run_pure. simpl.
  destruct (assert_array_like x); [| reflexivity].
  destruct (assert_array_like d); [| reflexivity].
  destruct (assert_array_like y); reflexivity.
Qed.

Lemma test_contrib_after_load name sub pb w m w3 :
  load_contrib (name, sub) pb w = (Ok m, w3) ->
  test_contrib (name, sub) pb w =
  (probe_contrib m ;;
   meta_data <- load_metadata sub ;;
   n_examples <- pure (check_metadata meta_data) ;;
   check_examples m n_examples ;;
   check_licence sub) w3.
Proof.
  intros H. unfold test_contrib. rewrite (run_bind_Ok _ _ _ _ _ H).
  reflexivity.
Qed.

(** C1. For a loaded contribution whose [set_example_number(0)],
    [suggested_model()], [data()] and [forward(model)] have returned, check 4
    lets validation proceed exactly when the three results are array-like,
    that is when [np.ndim] of each is non-zero; when one of them is not,
    check 4 raises, and so does [test_contrib] for every run that reached
    check 4 with this module. *)
Theorem required_results_must_be_array_like :
  forall m w w1 w2 w3 w4 x d y,
    call_set_example_number m 0 w = (Ok tt, w1) ->
    call_suggested_model m w1 = (Ok x, w2) ->
    call_data m w2 = (Ok d, w3) ->
    call_forward m x None w3 = (Ok y, w4) ->
    (required_functions m w = (Ok (x, d), w4) <-> all_array_like x d y) /\
    (all_array_like x d y <->
     exists nx nd ny,
       np_ndim x = Ok (S nx) /\ np_ndim d = Ok (S nd) /\
       np_ndim y = Ok (S ny)) /\
    (~ all_array_like x d y ->
     exists e,
       required_functions m w = (Raise e, w4) /\
       forall c pb w0,
         load_contrib c pb w0 = (Ok m, w) ->
         test_contrib c pb w0 = (Raise e, w4)).
Proof.
  intros m w w1 w2 w3 w4 x d y H1 H2 H3 H4.
  pose proof (required_functions_after_calls _ _ _ _ _ _ _ _ _ H1 H2 H3 H4)
    as Hrun.
  unfold all_array_like. repeat split.
  - rewrite Hrun in H. simpl in H.
    destruct (assert_array_like_cases x) as [[E A] | (e & E & A)];
      rewrite E in H; [exact A | discriminate H].
  - rewrite Hrun in H. simpl in H.
    destruct (assert_array_like x); [| discriminate H].
    destruct (assert_array_like_cases d) as [[E A] | (e & E & A)];
      rewrite E in H; [exact A | discriminate H].
  - rewrite Hrun in H. simpl in H.
    destruct (assert_array_like x); [| discriminate H].
    destruct (assert_array_like d); [| discriminate H].
    destruct (assert_array_like_cases y) as [[E A] | (e & E & A)];
      rewrite E in H; [exact A | discriminate H].
  - intros (Ax & Ad & Ay). rewrite Hrun. simpl.
    apply assert_array_like_Ok in Ax, Ad, Ay. rewrite Ax, Ad, Ay.
    reflexivity.
  - intros (Ax & Ad & Ay).
    apply array_like_ndim in Ax, Ad, Ay.
    destruct Ax as [nx Ex], Ad as [nd Ed], Ay as [ny Ey].
    exists nx, nd, ny. auto.
  - destruct H as (nx & nd & ny & Ex & _). apply array_like_ndim. eauto.
  - destruct H as (nx & nd & ny & _ & Ed & _). apply array_like_ndim. eauto.
  - destruct H as (nx & nd & ny & _ & _ & Ey). apply array_like_ndim. eauto.
  - intros Hnot.
    assert (exists e, required_functions m w = (Raise e, w4)) as [e He].
    { rewrite Hrun. simpl.
      destruct (assert_array_like_cases x) as [[Ex Ax] | (e & Ex & _)];
        rewrite Ex; [| eauto].
      destruct (assert_array_like_cases d) as [[Ed Ad] | (e & Ed & _)];
        rewrite Ed; [| eauto].
      destruct (assert_array_like_cases y) as [[Ey Ay] | (e & Ey & _)];
        rewrite Ey; [| eauto].
      exfalso. apply Hnot. auto. }
    exists e. split; [exact He |].
    intros [name sub] pb w0 Hload.
    rewrite (test_contrib_after_load _ _ _ _ _ _ Hload).
    unfold probe_contrib. rewrite run_bind.
    rewrite (run_bind_Raise _ _ _ _ _ He). reflexivity.
Qed.

(** ** Optional functions *)

Lemma run_call {A B} (attr : result A) (ev : event) (g : A -> pyfun B) w :
  (f <- getattr attr ;; invoke ev (g f)) w =
  match attr with
  | Ok f => let (r, h) := g f (state w) in (r, called w h [ev])
  | Raise e => (Raise e, w)
  end.
Proof. destruct attr; reflexivity. Qed.

Lemma is_NotImplementedError_true e :
  is_NotImplementedError e = true <-> e = NotImplementedError.
Proof. destruct e; simpl; split; intros E; try reflexivity; discriminate E. Qed.

Lemma result_unit_cases (r : result unit) :
  r = Ok tt \/ exists e, r = Raise e.
Proof. destruct r as [[] | e]; eauto. Qed.

(** a probe whose [else] branch is one check of the returned value, run *)
Lemma run_probe_checked {A B} (attr : result A) (ev : event)
    (g : A -> pyfun B) (check : B -> result unit) w :
  try_except_NotImplementedError
    (f <- getattr attr ;; invoke ev (g f)) (fun v => pure (check v)) w =
  match attr with
  | Ok f =>
      (match fst (g f (state w)) with
       | Ok v => check v
       | Raise e => if is_NotImplementedError e then Ok tt else Raise e
       end, called w (snd (g f (state w))) [ev])
  | Raise e => (if is_NotImplementedError e then Ok tt else Raise e, w)
  end.
Proof.
  unfold try_except_NotImplementedError. rewrite run_call.
  destruct attr as [f | e].
  - destruct (g f (state w)) as [[v | e] h]; simpl; [reflexivity |].
    destruct (is_NotImplementedError e); reflexivity.
  - destruct (is_NotImplementedError e); reflexivity.
Qed.

(** the law of a probe that runs as [run_probe_checked] says *)
Lemma probe_law_of_run {A B} (probe : M unit) (attr : result A) (ev : event)
    (g : A -> pyfun B) (check : B -> result unit) (accepts : B -> Prop) w :
  (forall v, check v = Ok tt <-> accepts v) ->
  probe w =
  match attr with
  | Ok f =>
      (match fst (g f (state w)) with
       | Ok v => check v
       | Raise e => if is_NotImplementedError e then Ok tt else Raise e
       end, called w (snd (g f (state w))) [ev])
  | Raise e => (if is_NotImplementedError e then Ok tt else Raise e, w)
  end ->
  probe_law probe attr g ev accepts w.
Proof.
  intros Hc Hrun. unfold probe_law. rewrite Hrun. split.
  - intros e ->. reflexivity.
  - intros f ->. simpl fst. simpl snd.
    assert (Hiff : match fst (g f (state w)) with
                   | Ok v => check v
                   | Raise e =>
                       if is_NotImplementedError e then Ok tt else Raise e
                   end = Ok tt <->
                   fst (g f (state w)) = Raise NotImplementedError \/
                   exists v, fst (g f (state w)) = Ok v /\ accepts v).
    { destruct (fst (g f (state w))) as [v | e].
      - split.
        + intros E. right. exists v. split; [reflexivity | apply Hc, E].
        + intros [E | (v' & E & Hv)]; [discriminate E |].
          injection E as <-. apply Hc, Hv.
      - split.
        + intros E. left. f_equal. apply is_NotImplementedError_true.
          destruct (is_NotImplementedError e); [reflexivity | discriminate E].
        + intros [E | (v' & E & _)]; [| discriminate E].
          injection E as ->. reflexivity. }
    split; [reflexivity |]. split; [exact Hiff |]. split.
    + intros Hn.
      destruct (result_unit_cases
                  (match fst (g f (state w)) with
                   | Ok v => check v
                   | Raise e =>
                       if is_NotImplementedError e then Ok tt else Raise e
                   end)) as [E | E];
        [exfalso; apply Hn, Hiff, E | exact E].
    + intros e -> Hne.
      destruct (is_NotImplementedError e) eqn:E; [| reflexivity].
      exfalso. apply Hne, is_NotImplementedError_true, E.
Qed.

Lemma assert_true b : assert b = Ok tt <-> b = true.
Proof. destruct b; simpl; split; intros E; try reflexivity; discriminate E. Qed.

Lemma probe_forward_with_jacobian_run m x w :
  probe_forward_with_jacobian m x w =
  match call_forward m x (Some true) w with
  | (Ok v, w1) => (check_two_parts v, w1)
  | (Raise e, w1) =>
      if is_NotImplementedError e then (Ok tt, w1) else (Raise e, w1)
  end.
Proof.
  unfold probe_forward_with_jacobian, try_except_NotImplementedError.
  rewrite run_bind. destruct (call_forward m x (Some true) w) as [[v | e] w1].
  - unfold unpack2, check_two_parts.
    destruct (items_of v) as [[| a [| b [| c l]]] | e]; try reflexivity.
    + simpl. destruct (assert_array_like a); reflexivity.
    + unfold raise. destruct (is_NotImplementedError e); reflexivity.
  - reflexivity.
Qed.

Lemma check_two_parts_Ok v :
  check_two_parts v = Ok tt <-> unpacks_to_two_array_likes v.
Proof.
  unfold check_two_parts, unpacks_to_two_array_likes, two_array_likes.
  destruct (items_of v) as [[| a [| b [| c l]]] | e].
  - split; [discriminate |].
    intros [E | (a' & b' & E & _)]; discriminate E.
  - split; [discriminate |].
    intros [E | (a' & b' & E & _)]; discriminate E.
  - split.
    + intros E. right. exists a, b. split; [reflexivity |].
      destruct (assert_array_like_cases a) as [[Ea Aa] | (e & Ea & _)];
        rewrite Ea in E; [| discriminate E].
      split; [exact Aa | apply assert_array_like_Ok, E].
    + intros [E | (a' & b' & E & Aa & Ab)]; [discriminate E |].
      injection E as <- <-.
      apply assert_array_like_Ok in Aa, Ab. rewrite Aa, Ab. reflexivity.
  - split; [discriminate |].
    intros [E | (a' & b' & E & _)]; discriminate E.
  - split.
    + intros E. left. f_equal. apply is_NotImplementedError_true.
      destruct (is_NotImplementedError e); [reflexivity | discriminate E].
    + intros [E | (a' & b' & E & _)]; [| discriminate E].
      injection E as ->. reflexivity.
Qed.

Lemma probe_forward_with_jacobian_law m x w :
  probe_law (probe_forward_with_jacobian m x) (mod_forward m)
    (fun f => f x (Some true)) (Call_forward x (Some true))
    unpacks_to_two_array_likes w.
Proof.
  apply (probe_law_of_run _ _ _ _ check_two_parts);
    [exact check_two_parts_Ok |].
  rewrite probe_forward_with_jacobian_run.
  unfold call_forward. rewrite run_call.
  destruct (mod_forward m) as [f | e].
  - destruct (f x (Some true) (state w)) as [[v | e] h]; simpl; [reflexivity |].
    destruct (is_NotImplementedError e); reflexivity.
  - destruct (is_NotImplementedError e); reflexivity.
Qed.

Lemma probe_jacobian_law m x w :
  probe_law (probe_jacobian m x) (mod_jacobian m) (fun f => f x)
    (Call_jacobian x) array_like w.
Proof.
  apply (probe_law_of_run _ _ _ _ assert_array_like);
    [exact assert_array_like_Ok |].
  exact (run_probe_checked (mod_jacobian m) (Call_jacobian x)
           (fun f => f x) assert_array_like w).
Qed.

Lemma probe_plot_model_law m x w :
  probe_law (probe_plot_model m x) (mod_plot_model m) (fun f => f x)
    (Call_plot_model x) figure w.
Proof.
  apply (probe_law_of_run _ _ _ _ (fun v => assert (isinstance_Figure v)));
    [intros v; apply assert_true |].
  exact (run_probe_checked (mod_plot_model m) (Call_plot_model x)
           (fun f => f x) (fun v => assert (isinstance_Figure v)) w).
Qed.

Lemma probe_plot_data_law m d w :
  probe_law (probe_plot_data m d) (mod_plot_data m) (fun f => f d)
    (Call_plot_data d) figure w.
Proof.
  apply (probe_law_of_run _ _ _ _ (fun v => assert (isinstance_Figure v)));
    [intros v; apply assert_true |].
  exact (run_probe_checked (mod_plot_data m) (Call_plot_data d)
           (fun f => f d) (fun v => assert (isinstance_Figure v)) w).
Qed.

Lemma test_contrib_after_required name sub pb w m w3 x d w4 :
  load_contrib (name, sub) pb w = (Ok m, w3) ->
  required_functions m w3 = (Ok (x, d), w4) ->
  test_contrib (name, sub) pb w =
  (optional_functions m x d ;;
   meta_data <- load_metadata sub ;;
   n_examples <- pure (check_metadata meta_data) ;;
   check_examples m n_examples ;;
   check_licence sub) w4.
Proof.
  intros Hload Hreq. rewrite (test_contrib_after_load _ _ _ _ _ _ Hload).
  unfold probe_contrib. rewrite !run_bind, Hreq. reflexivity.
Qed.

(** C2, as the code has it.  Each optional probe
    ([forward(model, with_jacobian=True)], [jacobian(model)],
    [plot_model(model)], [plot_data(data)]) evaluates its whole call statement
    inside the [try].  When the lookup of the function raises, nothing is
    called: [NotImplementedError] lets the probe pass, any other exception
    ([AttributeError] for a missing function) is raised.  When the lookup
    returns, the function is always run, on the module's state, and the
    probe passes exactly when it raised [NotImplementedError] or returned a
    value the probe accepts: an array-like for [jacobian], a [Figure] for the
    two plots, and for [forward] a value that unpacks to exactly two
    array-likes, or whose unpacking raises [NotImplementedError]; every other
    outcome raises.  Check 5 passes exactly when the four probes pass in
    turn, and a raising probe makes [test_contrib] raise the same
    exception. *)
Theorem optional_probes_accept_two_outcomes :
  forall m x d w,
    probe_law (probe_forward_with_jacobian m x) (mod_forward m)
      (fun f => f x (Some true)) (Call_forward x (Some true))
      unpacks_to_two_array_likes w /\
    probe_law (probe_jacobian m x) (mod_jacobian m) (fun f => f x)
      (Call_jacobian x) array_like w /\
    probe_law (probe_plot_model m x) (mod_plot_model m) (fun f => f x)
      (Call_plot_model x) figure w /\
    probe_law (probe_plot_data m d) (mod_plot_data m) (fun f => f d)
      (Call_plot_data d) figure w /\
    (forall w4,
       optional_functions m x d w = (Ok tt, w4) <->
       exists w1 w2 w3,
         probe_forward_with_jacobian m x w = (Ok tt, w1) /\
         probe_jacobian m x w1 = (Ok tt, w2) /\
         probe_plot_model m x w2 = (Ok tt, w3) /\
         probe_plot_data m d w3 = (Ok tt, w4)) /\
    (forall e w' c pb w0 w3,
       load_contrib c pb w0 = (Ok m, w3) ->
       required_functions m w3 = (Ok (x, d), w) ->
       optional_functions m x d w = (Raise e, w') ->
       test_contrib c pb w0 = (Raise e, w')).
Proof.
  intros m x d w. split; [apply probe_forward_with_jacobian_law |].
  split; [apply probe_jacobian_law |].
  split; [apply probe_plot_model_law |].
  split; [apply probe_plot_data_law |].
  split.
  - intros w4. unfold optional_functions. split.
    + intros H.
      apply run_bind_Ok_inv in H. destruct H as ([] & w1 & H1 & H).
      apply run_bind_Ok_inv in H. destruct H as ([] & w2 & H2 & H).
      apply run_bind_Ok_inv in H. destruct H as ([] & w3 & H3 & H).
      exists w1, w2, w3. auto.
    + intros (w1 & w2 & w3 & H1 & H2 & H3 & H4).
      rewrite (run_bind_Ok _ _ _ _ _ H1), (run_bind_Ok _ _ _ _ _ H2),
        (run_bind_Ok _ _ _ _ _ H3). exact H4.
  - intros e w' [name sub] pb w0 w3 Hload Hreq Hopt.
    rewrite (test_contrib_after_required _ _ _ _ _ _ _ _ _ Hload Hreq).
    apply run_bind_Raise. exact Hopt.
Qed.

(** ** The example-count cross-check *)

Lemma bind_result_Ok_inv {A B} (c : result A) (k : A -> result B) b :
  (x <- c ;; k x) = Ok b -> exists a, c = Ok a /\ k a = Ok b.
Proof.
  simpl. destruct c as [a | e]; intros E; [eauto | discriminate E].
Qed.

Lemma run_call_set_example_number m f i w :
  mod_set_example_number m = Ok f ->
  call_set_example_number m i w =
  (fst (f i (state w)), called w (snd (f i (state w))) [Call_set_example_number i]).
Proof.
  intros Hf. unfold call_set_example_number. rewrite run_call, Hf.
  destruct (f i (state w)); reflexivity.
Qed.

Lemma called_nil w : called w (state w) [] = w.
Proof. destruct w. unfold called. simpl. rewrite app_nil_r. reflexivity. Qed.

Lemma for_each_cons {A} (x : A) (l : list A) (body : A -> M unit) :
  for_each (x :: l) body = (body x ;; for_each l body).
Proof. reflexivity. Qed.

(** the loop of check 7 from example [a] on, while every call returns *)
Lemma examples_loop_returns m f h :
  mod_set_example_number m = Ok f ->
  forall n a w,
    state w = heap_after f a h ->
    (forall i, a <= i < a + n -> outcome_of_call f h i = Ok tt) ->
    for_each (seq a n)
      (fun i => call_set_example_number m (Z.of_nat i)) w =
    (Ok tt,
     called w (heap_after f (a + n) h)
       (map (fun i => Call_set_example_number (Z.of_nat i)) (seq a n))).
Proof.
  intros Hf. induction n as [| n IH]; intros a w Hw Hall.
  - simpl. rewrite Nat.add_0_r, <- Hw, called_nil. reflexivity.
  - change (seq a (S n)) with (a :: seq (S a) n).
    rewrite for_each_cons, run_bind.
    rewrite (run_call_set_example_number _ _ _ _ Hf), Hw.
    assert (Ha : outcome_of_call f h a = Ok tt) by (apply Hall; lia).
    unfold outcome_of_call in Ha. rewrite Ha.
    rewrite (IH (S a)).
    + rewrite called_called. simpl. rewrite Nat.add_succ_r. reflexivity.
    + reflexivity.
    + intros i Hi. apply Hall. lia.
Qed.

(** the same loop when the call for example [j] is the first to raise *)
Lemma examples_loop_raises m f h :
  mod_set_example_number m = Ok f ->
  forall n a w j e,
    state w = heap_after f a h ->
    a <= j < a + n ->
    (forall i, a <= i < j -> outcome_of_call f h i = Ok tt) ->
    outcome_of_call f h j = Raise e ->
    for_each (seq a n)
      (fun i => call_set_example_number m (Z.of_nat i)) w =
    (Raise e,
     called w (heap_after f (S j) h)
       (map (fun i => Call_set_example_number (Z.of_nat i))
            (seq a (S j - a)))).
Proof.
  intros Hf. induction n as [| n IH]; intros a w j e Hw Hj Hbefore Hraise.
  - lia.
  - change (seq a (S n)) with (a :: seq (S a) n).
    rewrite for_each_cons, run_bind.
    rewrite (run_call_set_example_number _ _ _ _ Hf), Hw.
    destruct (Nat.eq_dec j a) as [-> | Hne].
    + unfold outcome_of_call in Hraise. rewrite Hraise.
      replace (S a - a) with 1 by lia. reflexivity.
    + assert (Ha : outcome_of_call f h a = Ok tt) by (apply Hbefore; lia).
      unfold outcome_of_call in Ha. rewrite Ha.
      rewrite (IH (S a) _ j e); try assumption.
      * rewrite called_called.
        replace (S j - a) with (S (S j - S a)) by lia. reflexivity.
      * reflexivity.
      * lia.
      * intros i Hi. apply Hbefore. lia.
Qed.

(** whatever the calls do, the loop calls a prefix of [0, 1, ..., n-1] *)
Lemma examples_loop_prefix m :
  forall n a w,
    exists k,
      k <= n /\
      trace (snd (for_each (seq a n)
                    (fun i => call_set_example_number m (Z.of_nat i)) w)) =
      (trace w
       ++ map (fun i => Call_set_example_number (Z.of_nat i)) (seq a k))%list.
Proof.
  induction n as [| n IH]; intros a w.
  - exists 0. split; [lia |]. simpl. rewrite app_nil_r. reflexivity.
  - change (seq a (S n)) with (a :: seq (S a) n).
    rewrite for_each_cons, run_bind.
    unfold call_set_example_number at 1. rewrite run_call.
    destruct (mod_set_example_number m) as [f | e0].
    + destruct (f (Z.of_nat a) (state w)) as [[[] | e] h1].
      * destruct (IH (S a) (called w h1 [Call_set_example_number (Z.of_nat a)]))
          as (k & Hk & Ht).
        exists (S k). split; [lia |]. rewrite Ht. simpl.
        rewrite <- app_assoc. reflexivity.
      * exists 1. split; [lia |]. reflexivity.
    + exists 0. split; [lia |]. simpl. rewrite app_nil_r. reflexivity.
Qed.

Lemma load_metadata_world sub w : snd (load_metadata sub w) = w.
Proof.
  unfold load_metadata. rewrite run_bind. unfold reading, pure.
  destruct (open_r (fs w) (sub ++ "/metadata.yml")); reflexivity.
Qed.

Lemma load_metadata_run sub w :
  load_metadata sub w = (fst (load_metadata sub w), w).
Proof.
  rewrite <- (load_metadata_world sub w) at 3.
  destruct (load_metadata sub w); reflexivity.
Qed.

Lemma test_contrib_after_probe name sub pb w m w3 w5 :
  load_contrib (name, sub) pb w = (Ok m, w3) ->
  probe_contrib m w3 = (Ok tt, w5) ->
  test_contrib (name, sub) pb w =
  (meta_data <- load_metadata sub ;;
   n_examples <- pure (check_metadata meta_data) ;;
   check_examples m n_examples ;;
   check_licence sub) w5.
Proof.
  intros Hload Hprobe. rewrite (test_contrib_after_load _ _ _ _ _ _ Hload).
  rewrite (run_bind_Ok _ _ _ _ _ Hprobe). reflexivity.
Qed.

Lemma test_contrib_after_metadata name sub pb w m w3 w5 doc n :
  load_contrib (name, sub) pb w = (Ok m, w3) ->
  probe_contrib m w3 = (Ok tt, w5) ->
  fst (load_metadata sub w5) = Ok doc ->
  check_metadata doc = Ok n ->
  test_contrib (name, sub) pb w =
  (check_examples m n ;; check_licence sub) w5.
Proof.
  intros Hload Hprobe Hdoc Hn.
  rewrite (test_contrib_after_probe _ _ _ _ _ _ _ Hload Hprobe).
  rewrite run_bind, load_metadata_run, Hdoc.
  rewrite run_bind, run_pure, Hn. reflexivity.
Qed.

Lemma check_metadata_count pairs exs n :
  assoc "examples" pairs = Some (YSeq exs) ->
  check_metadata (YMap pairs) = Ok n ->
  n = length exs.
Proof.
  intros Hex H. unfold check_metadata in H.
  apply bind_result_Ok_inv in H. destruct H as (n' & H & Hn).
  apply bind_result_Ok_inv in Hn. destruct Hn as (_ & _ & Hn).
  simpl in Hn. injection Hn as Hn. subst n'.
  unfold check_required_keys in H.
  apply bind_result_Ok_inv in H. destruct H as (_ & _ & H).
  unfold py_getitem in H. rewrite Hex in H.
  apply bind_result_Ok_inv in H. destruct H as (ex & E & H).
  injection E as E. subst ex.
  apply bind_result_Ok_inv in H. destruct H as (len & E & H).
  simpl in E. injection E as E. subst len.
  apply bind_result_Ok_inv in H. destruct H as (ex & _ & H).
  apply bind_result_Ok_inv in H. destruct H as (records & _ & H).
  apply bind_result_Ok_inv in H. destruct H as (_ & _ & H).
  simpl in H. injection H as H. symmetry. exact H.
Qed.

Lemma probed_has_set_example_number m w3 w5 :
  probe_contrib m w3 = (Ok tt, w5) ->
  exists f, mod_set_example_number m = Ok f.
Proof.
  intros H. unfold probe_contrib in H.
  apply run_bind_Ok_inv in H. destruct H as ([x d] & w4 & H & _).
  unfold required_functions in H.
  apply run_bind_Ok_inv in H. destruct H as ([] & w1 & H & _).
  unfold call_set_example_number in H. rewrite run_call in H.
  destruct (mod_set_example_number m) as [f | e]; [eauto | discriminate H].
Qed.

(** C3. When a run reaches check 7 with the metadata declaring the sequence
    [exs] of [n] examples, [test_contrib] goes on with the loop over
    [range(n)]: the calls it makes are [set_example_number(0)],
    [set_example_number(1)], ... in increasing order and never one for
    [i >= n]; when every call returns, all of [0 .. n-1] are called; when the
    call for [j] is the first to raise, the loop stops there and
    [test_contrib] raises the same exception. *)
Theorem cross_check_calls_every_example :
  forall c pb w m w3 w5 pairs exs n,
    load_contrib c pb w = (Ok m, w3) ->
    probe_contrib m w3 = (Ok tt, w5) ->
    fst (load_metadata (snd c) w5) = Ok (YMap pairs) ->
    assoc "examples" pairs = Some (YSeq exs) ->
    check_metadata (YMap pairs) = Ok n ->
    n = length exs /\
    test_contrib c pb w = (check_examples m n ;; check_licence (snd c)) w5 /\
    (exists k,
       k <= n /\
       trace (snd (check_examples m n w5))
       = (trace w5 ++ example_calls k)%list) /\
    exists f,
      mod_set_example_number m = Ok f /\
      ((forall i, i < n -> outcome_of_call f (state w5) i = Ok tt) ->
       check_examples m n w5 =
       (Ok tt, called w5 (heap_after f n (state w5)) (example_calls n))) /\
      (forall j e,
         j < n ->
         (forall i, i < j -> outcome_of_call f (state w5) i = Ok tt) ->
         outcome_of_call f (state w5) j = Raise e ->
         check_examples m n w5 =
         (Raise e,
          called w5 (heap_after f (S j) (state w5)) (example_calls (S j))) /\
         test_contrib c pb w =
         (Raise e,
          called w5 (heap_after f (S j) (state w5)) (example_calls (S j)))).
Proof.
  intros [name sub] pb w m w3 w5 pairs exs n Hload Hprobe Hdoc Hex Hn.
  simpl snd in *.
  pose proof (test_contrib_after_metadata _ _ _ _ _ _ _ _ _
                Hload Hprobe Hdoc Hn) as Htest.
  split; [exact (check_metadata_count _ _ _ Hex Hn) |].
  split; [exact Htest |].
  split; [apply examples_loop_prefix |].
  destruct (probed_has_set_example_number _ _ _ Hprobe) as [f Hf].
  exists f. split; [exact Hf |]. split.
  - intros Hall. unfold check_examples, example_calls, range.
    apply (examples_loop_returns m f (state w5) Hf n 0 w5); [reflexivity |].
    intros i Hi. apply Hall. lia.
  - intros j e Hj Hbefore Hraise.
    assert (Hloop : check_examples m n w5 =
                    (Raise e, called w5 (heap_after f (S j) (state w5))
                                (example_calls (S j)))).
    { unfold check_examples, example_calls, range.
      apply (examples_loop_raises m f (state w5) Hf n 0 w5 j e eq_refl
               (conj (Nat.le_0_l j) Hj)); [| exact Hraise].
      intros i Hi. apply Hbefore. lia. }
    split; [exact Hloop |].
    rewrite Htest. apply run_bind_Raise. exact Hloop.
Qed.

(** ** Folder layout and export list *)

Lemma str_in_In x l : str_in x l = true <-> In x l.
Proof.
  unfold str_in. rewrite existsb_exists. split.
  - intros (y & Hy & E). apply String.eqb_eq in E. subst y. exact Hy.
  - intros H. exists x. split; [exact H | apply String.eqb_refl].
Qed.

Lemma for_each_asserts {A} (p : A -> bool) (l : list A) :
  for_each (m := result) l (fun a => assert (p a)) =
  if forallb p l then Ok tt else Raise AssertionError.
Proof.
  induction l as [| a l IH]; simpl; [reflexivity |].
  destruct (p a); simpl; [exact IH | reflexivity].
Qed.

Lemma check_exports_run m :
  check_exports m =
  match __all__ m with
  | Ok all => for_each (m := result) std_funcs (fun fn => assert_in fn all)
  | Raise e => Raise e
  end.
Proof. unfold check_exports. destruct (__all__ m); reflexivity. Qed.

Lemma existsb_is_str fn names :
  existsb (is_str fn) names = true <-> In (YStr fn) names.
Proof.
  rewrite existsb_exists. split.
  - intros (y & Hy & E). destruct y; try discriminate E.
    simpl in E. apply String.eqb_eq in E. subst s. exact Hy.
  - intros H. exists (YStr fn). split; [exact H | apply String.eqb_refl].
Qed.

Lemma chars_length k s : In (YStr k) (chars s) -> String.length k = 1.
Proof.
  induction s as [| c s IH]; simpl; [contradiction |].
  intros [E | H]; [injection E as <-; reflexivity | exact (IH H)].
Qed.

Lemma run_get_folder_content folder w :
  get_folder_content folder w =
  (names <- os_listdir (fs w) folder ;;
   ret (names, map (fun name => folder ++ "/" ++ name) names), w).
Proof.
  unfold get_folder_content. rewrite run_bind. unfold reading.
  destruct (os_listdir (fs w) folder); reflexivity.
Qed.

Lemma load_contrib_run name sub pb w :
  load_contrib (name, sub) pb w =
  match os_listdir (fs w) sub with
  | Ok names =>
      match check_folder name names with
      | Ok _ =>
          match load_module pb name w with
          | (Ok m, w3) =>
              match check_exports m with
              | Ok _ => (Ok m, w3)
              | Raise e => (Raise e, w3)
              end
          | (Raise e, w3) => (Raise e, w3)
          end
      | Raise e => (Raise e, w)
      end
  | Raise e => (Raise e, w)
  end.
Proof.
  unfold load_contrib. rewrite run_bind, run_get_folder_content.
  destruct (os_listdir (fs w) sub) as [names | e]; [| reflexivity].
  simpl bind. cbv beta iota. rewrite run_bind, run_pure.
  destruct (check_folder name names) as [[] | e]; [| reflexivity].
  rewrite run_bind.
  destruct (load_module pb name w) as [[m | e] w3]; [| reflexivity].
  rewrite run_bind, run_pure.
  destruct (check_exports m) as [[] | e]; reflexivity.
Qed.

Lemma for_each_result_all {A} (l : list A) (body : A -> result unit) :
  for_each (m := result) l body = Ok tt <-> forall a, In a l -> body a = Ok tt.
Proof.
  induction l as [| b l IH]; simpl.
  - split; [intros _ a [] | reflexivity].
  - destruct (body b) as [[] | e] eqn:Eb.
    + rewrite IH. split.
      * intros H a [<- | Ha]; [exact Eb | exact (H a Ha)].
      * intros H a Ha. apply H. right. exact Ha.
    + split; [discriminate |]. intros H.
      rewrite <- Eb. apply H. left. reflexivity.
Qed.

Lemma assert_in_iff k obj : assert_in k obj = Ok tt <-> py_in k obj = Ok true.
Proof.
  unfold assert_in. simpl.
  destruct (py_in k obj) as [[|] | e]; simpl; split; intros E;
    try reflexivity; discriminate E.
Qed.

(** C4, as the code has it.  The export-list check passes exactly when the
    lookup of [__all__] returns an object for which [name in __all__] holds,
    by Python's [in], for each of the seven standard names.  For a list (or
    tuple) that is exactly when it contains the seven names, and a missing
    name raises [AssertionError]; for a string it is exactly when each name
    occurs in it as a substring.  The module is handed to the later checks
    only after passing, and a run whose module fails the check raises. *)
Theorem export_list_must_cover_std_funcs :
  forall m,
    std_funcs =
      ["set_example_number"; "suggested_model"; "data"; "forward";
       "jacobian"; "plot_model"; "plot_data"] /\
    (check_exports m = Ok tt <->
     exists all,
       __all__ m = Ok all /\
       forall fn, In fn std_funcs -> py_in fn all = Ok true) /\
    (forall names,
       __all__ m = Ok (YSeq names) ->
       (check_exports m = Ok tt <->
        forall fn, In fn std_funcs -> In (YStr fn) names) /\
       (forall fn,
          In fn std_funcs -> ~ In (YStr fn) names ->
          check_exports m = Raise AssertionError)) /\
    (forall s,
       __all__ m = Ok (YStr s) ->
       (check_exports m = Ok tt <->
        forall fn, In fn std_funcs -> str_contains fn s = true)) /\
    (forall c pb w w3, load_contrib c pb w = (Ok m, w3) ->
                       check_exports m = Ok tt) /\
    (forall c pb w names w3 e,
       os_listdir (fs w) (snd c) = Ok names ->
       check_folder (fst c) names = Ok tt ->
       load_module pb (fst c) w = (Ok m, w3) ->
       check_exports m = Raise e ->
       test_contrib c pb w = (Raise e, w3)).
Proof.
  intros m. split; [reflexivity |].
  assert (Hgen : check_exports m = Ok tt <->
                 exists all,
                   __all__ m = Ok all /\
                   forall fn, In fn std_funcs -> py_in fn all = Ok true).
  { rewrite check_exports_run. destruct (__all__ m) as [all | e].
    - rewrite for_each_result_all. split.
      + intros H. exists all. split; [reflexivity |].
        intros fn Hfn. apply assert_in_iff, H, Hfn.
      + intros (all' & E & H) fn Hfn. injection E as <-.
        apply assert_in_iff, H, Hfn.
    - split; [discriminate | intros (all & E & _); discriminate E]. }
  split; [exact Hgen |]. split; [| split; [| split]].
  - intros names Hall.
    assert (Hlist : check_exports m = Ok tt <->
                    forall fn, In fn std_funcs -> In (YStr fn) names).
    { rewrite Hgen. split.
      - intros (all & E & H) fn Hfn. rewrite Hall in E. injection E as <-.
        specialize (H fn Hfn). simpl in H. injection H as H.
        apply existsb_is_str, H.
      - intros H. exists (YSeq names). split; [exact Hall |].
        intros fn Hfn. simpl. f_equal. apply existsb_is_str, H, Hfn. }
    split; [exact Hlist |].
    intros fn Hfn Hmissing. rewrite check_exports_run, Hall.
    assert (Hrun : for_each (m := result) std_funcs
                     (fun fn => assert_in fn (YSeq names)) =
                   if forallb (fun fn => existsb (is_str fn) names) std_funcs
                   then Ok tt else Raise AssertionError)
      by (rewrite <- (for_each_asserts
                        (fun fn => existsb (is_str fn) names)); reflexivity).
    rewrite Hrun.
    destruct (forallb (fun fn => existsb (is_str fn) names) std_funcs) eqn:Hb;
      [| reflexivity].
    exfalso. apply Hmissing. rewrite forallb_forall in Hb.
    apply existsb_is_str, Hb, Hfn.
  - intros s Hall. rewrite Hgen. split.
    + intros (all & E & H) fn Hfn. rewrite Hall in E. injection E as <-.
      specialize (H fn Hfn). simpl in H. injection H as H. exact H.
    + intros H. exists (YStr s). split; [exact Hall |].
      intros fn Hfn. simpl. f_equal. apply H, Hfn.
  - intros [name sub] pb w w3 H. rewrite load_contrib_run in H.
    destruct (os_listdir (fs w) sub) as [names | e]; [| discriminate H].
    destruct (check_folder name names) as [[] | e]; [| discriminate H].
    destruct (load_module pb name w) as [[m' | e] w3']; [| discriminate H].
    destruct (check_exports m') as [[] | e] eqn:Hc; [| discriminate H].
    injection H as -> ->. exact Hc.
  - intros [name sub] pb w names w3 e Hnames Hfolder Hmod Hc.
    simpl in Hnames, Hfolder, Hmod.
    unfold test_contrib. apply run_bind_Raise.
    rewrite load_contrib_run, Hnames, Hfolder, Hmod, Hc. reflexivity.
Qed.

(** ** Metadata *)

Lemma for_each_result_raises {A} (l : list A) (body : A -> result unit) a :
  In a l -> body a <> Ok tt ->
  exists e, for_each (m := result) l body = Raise e.
Proof.
  intros Hin Hbad. induction l as [| b l IH]; [contradiction |].
  simpl. destruct (body b) as [[] | e] eqn:Eb; [| eauto].
  destruct Hin as [-> | Hin]; [contradiction | exact (IH Hin)].
Qed.

Lemma assert_in_false k obj : py_in k obj = Ok false -> assert_in k obj <> Ok tt.
Proof. intros E. unfold assert_in. rewrite E. discriminate. Qed.

Lemma record_without_key r k :
  In k ["description"; "model_dimension"; "data_dimension"] ->
  py_in k (YMap r) = Ok false ->
  (assert_in "description" (YMap r) ;;
   assert_in "model_dimension" (YMap r) ;;
   assert_in "data_dimension" (YMap r)) <> Ok tt.
Proof.
  intros Hk Hmiss. apply assert_in_false in Hmiss.
  simpl in Hk. destruct Hk as [<- | [<- | [<- | []]]]; simpl.
  - destruct (assert_in "description" (YMap r)) as [[] |];
      [contradiction | discriminate].
  - destruct (assert_in "description" (YMap r)) as [[] |]; [| discriminate].
    destruct (assert_in "model_dimension" (YMap r)) as [[] |];
      [contradiction | discriminate].
  - destruct (assert_in "description" (YMap r)) as [[] |]; [| discriminate].
    destruct (assert_in "model_dimension" (YMap r)) as [[] |];
      [| discriminate].
    exact Hmiss.
Qed.

Lemma check_metadata_bad_example pairs exs r k :
  assoc "examples" pairs = Some (YSeq exs) ->
  In (YMap r) exs ->
  In k ["description"; "model_dimension"; "data_dimension"] ->
  py_in k (YMap r) = Ok false ->
  exists e, check_metadata (YMap pairs) = Raise e.
Proof.
  intros Hex Hin Hk Hmiss.
  assert (exists e, check_required_keys (YMap pairs) = Raise e) as [e He].
  { unfold check_required_keys.
    destruct (for_each (m := result)
                ["name"; "short_description"; "authors"; "examples"]
                (fun k => assert_in k (YMap pairs))) as [[] | e] eqn:E.
    - change (exists e,
        (examples <- py_getitem (YMap pairs) "examples" ;;
         n_examples <- py_len examples ;;
         examples <- py_getitem (YMap pairs) "examples" ;;
         records <- py_iter examples ;;
         for_each (m := result) records (fun example =>
           assert_in "description" example ;;
           assert_in "model_dimension" example ;;
           assert_in "data_dimension" example) ;;
         ret n_examples) = Raise e).
      unfold py_getitem. rewrite Hex. simpl.
      destruct (for_each_result_raises exs
                  (fun example =>
                     assert_in "description" example ;;
                     assert_in "model_dimension" example ;;
                     assert_in "data_dimension" example)
                  (YMap r) Hin
                  (record_without_key r k Hk Hmiss)) as [e He].
      simpl in He. rewrite He. eauto.
    - exists e. reflexivity. }
  exists e. unfold check_metadata. rewrite He. reflexivity.
Qed.

Lemma test_contrib_fails_before name sub pb w e w5 :
  before_metadata (name, sub) pb w = (Raise e, w5) ->
  test_contrib (name, sub) pb w = (Raise e, w5).
Proof.
  unfold before_metadata, test_contrib. rewrite !run_bind.
  destruct (load_contrib (name, sub) pb w) as [[m | e'] w3]; [| auto].
  rewrite run_bind. intros H. rewrite H. reflexivity.
Qed.

Lemma before_metadata_Ok_inv c pb w w5 :
  before_metadata c pb w = (Ok tt, w5) ->
  exists m w3,
    load_contrib c pb w = (Ok m, w3) /\ probe_contrib m w3 = (Ok tt, w5).
Proof. intros H. apply run_bind_Ok_inv in H. exact H. Qed.

Ltac env_side :=
  first [ exact same_env_refl | exact same_env_trans
        | exact same_env_called | exact same_env_load ].

Lemma before_metadata_same_env c pb : keeps same_env (before_metadata c pb).
Proof.
  apply keeps_bind; try env_side.
  - apply keeps_load_contrib; env_side.
  - intros m. apply keeps_probe_contrib; env_side.
Qed.

Lemma run_load_metadata sub w text :
  open_r (fs w) (sub ++ "/metadata.yml") = Ok text ->
  load_metadata sub w = (yaml_safe_load text, w).
Proof.
  intros H. unfold load_metadata. rewrite run_bind. unfold reading.
  rewrite H. reflexivity.
Qed.

(** C5. When the metadata file parses to a mapping whose [examples] is a
    sequence holding a record without one of [description],
    [model_dimension], [data_dimension], [test_contrib] raises and the world
    it leaves is the one reached by checks 1 to 5: nothing is called in the
    contribution afterwards, so the loop of check 7 never makes a call; and
    when checks 1 to 5 pass, the exception is the one raised by the schema
    check. *)
Theorem bad_example_record_fails_before_cross_check :
  forall c pb w text pairs exs r k,
    open_r (fs w) (snd c ++ "/metadata.yml") = Ok text ->
    yaml_safe_load text = Ok (YMap pairs) ->
    assoc "examples" pairs = Some (YSeq exs) ->
    In (YMap r) exs ->
    In k ["description"; "model_dimension"; "data_dimension"] ->
    py_in k (YMap r) = Ok false ->
    exists e,
      test_contrib c pb w = (Raise e, snd (before_metadata c pb w)) /\
      (fst (before_metadata c pb w) = Ok tt ->
       check_metadata (YMap pairs) = Raise e).
Proof.
  intros [name sub] pb w text pairs exs r k Hopen Hparse Hex Hin Hk Hmiss.
  simpl snd in Hopen.
  destruct (check_metadata_bad_example _ _ _ _ Hex Hin Hk Hmiss) as [e He].
  destruct (before_metadata (name, sub) pb w) as [[[] | e'] w5] eqn:Hb.
  - exists e. split; [| intros _; exact He]. simpl snd.
    destruct (before_metadata_Ok_inv _ _ _ _ Hb) as (m & w3 & Hload & Hprobe).
    rewrite (test_contrib_after_probe _ _ _ _ _ _ _ Hload Hprobe).
    pose proof (before_metadata_same_env (name, sub) pb w) as (Hfs & _).
    rewrite Hb in Hfs. simpl in Hfs.
    rewrite <- Hfs in Hopen.
    rewrite run_bind, (run_load_metadata _ _ _ Hopen), Hparse.
    rewrite run_bind, run_pure, He. reflexivity.
  - exists e'. split; [| discriminate].
    apply test_contrib_fails_before. exact Hb.
Qed.

Lemma assoc_in k pairs v :
  assoc k pairs = Some v -> py_in k (YMap pairs) = Ok true.
Proof.
  intros H. simpl. f_equal. induction pairs as [| [k' v'] pairs IH].
  - discriminate H.
  - simpl in *. destruct (is_str k k'); [reflexivity | exact (IH H)].
Qed.

(** C10. A metadata mapping with [name], [short_description] and [authors]
    whose [examples] is the empty sequence passes the checks on the required
    keys and on the example records with a count of 0; the whole schema check
    then returns what the checks of the optional sections return; the loop of
    check 7 for 0 examples makes no call and changes nothing; so a run whose
    other checks pass goes straight on to the licence check. *)
Theorem zero_examples_accepted :
  forall pairs,
    py_in "name" (YMap pairs) = Ok true ->
    py_in "short_description" (YMap pairs) = Ok true ->
    py_in "authors" (YMap pairs) = Ok true ->
    assoc "examples" pairs = Some (YSeq []) ->
    check_required_keys (YMap pairs) = Ok 0 /\
    check_metadata (YMap pairs) =
      (check_optional_sections (YMap pairs) ;; ret 0) /\
    (forall m w, check_examples m 0 w = (Ok tt, w)) /\
    (forall c pb w m w3 w5,
       load_contrib c pb w = (Ok m, w3) ->
       probe_contrib m w3 = (Ok tt, w5) ->
       fst (load_metadata (snd c) w5) = Ok (YMap pairs) ->
       check_optional_sections (YMap pairs) = Ok tt ->
       test_contrib c pb w = check_licence (snd c) w5).
Proof.
  intros pairs Hname Hshort Hauthors Hex.
  assert (Hreq : check_required_keys (YMap pairs) = Ok 0).
  { unfold check_required_keys, assert_in.
    cbn [for_each]. rewrite Hname, Hshort, Hauthors, (assoc_in _ _ _ Hex).
    unfold py_getitem. rewrite Hex. reflexivity. }
  assert (Hmeta : check_metadata (YMap pairs) =
                  (check_optional_sections (YMap pairs) ;; ret 0)).
  { unfold check_metadata. rewrite Hreq. reflexivity. }
  split; [exact Hreq |]. split; [exact Hmeta |].
  split; [reflexivity |].
  intros [name sub] pb w m w3 w5 Hload Hprobe Hdoc Hopt. simpl snd in *.
  assert (Hn : check_metadata (YMap pairs) = Ok 0)
    by (rewrite Hmeta, Hopt; reflexivity).
  rewrite (test_contrib_after_metadata _ _ _ _ _ _ _ _ _
             Hload Hprobe Hdoc Hn).
  reflexivity.
Qed.

(** ** Licence *)

Lemma run_check_licence sub w :
  check_licence sub w =
  (st_size <- os_stat_st_size (fs w) (sub ++ "/LICENCE") ;;
   assert (negb (st_size =? 0)%nat), w).
Proof.
  unfold check_licence. rewrite run_bind. unfold reading.
  destruct (os_stat_st_size (fs w) (sub ++ "/LICENCE")); reflexivity.
Qed.

Lemma check_licence_Ok sub w w' :
  check_licence sub w = (Ok tt, w') ->
  exists size, os_stat_st_size (fs w) (sub ++ "/LICENCE") = Ok (S size).
Proof.
  rewrite run_check_licence. intros H. injection H as H _.
  destruct (os_stat_st_size (fs w) (sub ++ "/LICENCE")) as [[| size] | e];
    [discriminate H | eauto | discriminate H].
Qed.

(** a passing run, check by check *)
Lemma test_contrib_Ok_inv name sub pb w w' :
  test_contrib (name, sub) pb w = (Ok tt, w') ->
  exists m w3 w5 doc n w7,
    load_contrib (name, sub) pb w = (Ok m, w3) /\
    probe_contrib m w3 = (Ok tt, w5) /\
    fst (load_metadata sub w5) = Ok doc /\
    check_metadata doc = Ok n /\
    check_examples m n w5 = (Ok tt, w7) /\
    check_licence sub w7 = (Ok tt, w').
Proof.
  intros H. unfold test_contrib in H.
  apply run_bind_Ok_inv in H. destruct H as (m & w3 & Hload & H).
  apply run_bind_Ok_inv in H. destruct H as ([] & w5 & Hprobe & H).
  apply run_bind_Ok_inv in H. destruct H as (doc & w6 & Hdoc & H).
  apply run_bind_Ok_inv in H. destruct H as (n & w6' & Hn & H).
  apply run_bind_Ok_inv in H. destruct H as ([] & w7 & Hex & H).
  rewrite load_metadata_run in Hdoc. injection Hdoc as Hdoc <-.
  rewrite run_pure in Hn. injection Hn as Hn <-.
  exists m, w3, w5, doc, n, w7. auto 10.
Qed.

(** C9. A contribution whose LICENCE has size 0 never passes: [test_contrib]
    raises whatever the other checks do, and [AssertionError] from check 8
    when the first seven pass; a run that passes has a LICENCE of non-zero
    size. *)
Theorem empty_licence_fails :
  forall c pb w,
    (forall w',
       test_contrib c pb w = (Ok tt, w') ->
       exists size,
         os_stat_st_size (fs w) (snd c ++ "/LICENCE") = Ok (S size)) /\
    (os_stat_st_size (fs w) (snd c ++ "/LICENCE") = Ok 0 ->
     (exists e w', test_contrib c pb w = (Raise e, w')) /\
     (forall m w3 w5 doc n w7,
        load_contrib c pb w = (Ok m, w3) ->
        probe_contrib m w3 = (Ok tt, w5) ->
        fst (load_metadata (snd c) w5) = Ok doc ->
        check_metadata doc = Ok n ->
        check_examples m n w5 = (Ok tt, w7) ->
        test_contrib c pb w = (Raise AssertionError, w7))).
Proof.
  intros [name sub] pb w. simpl snd in *.
  assert (Hpass : forall w',
             test_contrib (name, sub) pb w = (Ok tt, w') ->
             exists size,
               os_stat_st_size (fs w) (sub ++ "/LICENCE") = Ok (S size)).
  { intros w' H.
    pose proof (test_contrib_same_env (name, sub) pb w) as (Hfs & _).
    rewrite H in Hfs. simpl in Hfs.
    destruct (test_contrib_Ok_inv _ _ _ _ _ H)
      as (m & w3 & w5 & doc & n & w7 & _ & _ & _ & _ & _ & Hlic).
    assert (w7 = w') as ->.
    { rewrite run_check_licence in Hlic. injection Hlic as _ E. exact E. }
    destruct (check_licence_Ok _ _ _ Hlic) as [size Hs].
    rewrite Hfs in Hs. eauto. }
  split; [exact Hpass |]. intros Hsize.
  assert (Hnot : forall w', test_contrib (name, sub) pb w <> (Ok tt, w')).
  { intros w' H. destruct (Hpass w' H) as [size Hs].
    rewrite Hsize in Hs. discriminate Hs. }
  split.
  - destruct (test_contrib (name, sub) pb w) as [[[] | e] w'] eqn:E.
    + exfalso. exact (Hnot w' eq_refl).
    + exists e, w'. reflexivity.
  - intros m w3 w5 doc n w7 Hload Hprobe Hdoc Hn Hex.
    rewrite (test_contrib_after_metadata _ _ _ _ _ _ _ _ _
               Hload Hprobe Hdoc Hn).
    rewrite (run_bind_Ok _ _ _ _ _ Hex), run_check_licence.
    assert (Hfs : fs w7 = fs w).
    { pose proof (before_metadata_same_env (name, sub) pb w) as (H5 & _).
      unfold before_metadata in H5.
      rewrite (run_bind_Ok _ _ _ _ _ Hload), Hprobe in H5. simpl in H5.
      pose proof (keeps_check_examples same_env same_env_refl same_env_trans
                    same_env_called m n w5) as (H7 & _).
      rewrite Hex in H7. simpl in H7. congruence. }
    rewrite Hfs, Hsize. reflexivity.
Qed.

(** ** The command line *)

Lemma pre_build_world w : snd (pre_build w) = w.
Proof.
  unfold pre_build. destruct (1 <? length (sys_argv w))%nat; [| reflexivity].
  destruct (negb (str_in (last (sys_argv w) "") ["pre"; "post"]));
    reflexivity.
Qed.

Lemma pre_build_argv w w' :
  sys_argv w' = sys_argv w -> fst (pre_build w') = fst (pre_build w).
Proof.
  intros E. unfold pre_build. rewrite E.
  destruct (1 <? length (sys_argv w))%nat; [| reflexivity].
  destruct (negb (str_in (last (sys_argv w) "") ["pre"; "post"]));
    reflexivity.
Qed.

Lemma run_items_setup_error e :
  forall contribs w,
    pre_build w = (Raise e, w) ->
    run_items contribs w = (map (fun _ => Raise e) contribs, w).
Proof.
  induction contribs as [| c rest IH]; intros w H; [reflexivity |].
  simpl. unfold run_item. rewrite run_bind, H, (IH w H). reflexivity.
Qed.

(** C7. With more than the program name on the command line, the last
    argument selects the mode: [pre] gives [True], [post] gives [False], and
    any other value makes the fixture raise [ValueError], so that every test
    item errors at set-up and the body of [test_contrib] runs for no
    contribution (the world is left as it was).  With no argument the mode
    is [pre]. *)
Theorem pre_build_accepts_only_pre_and_post :
  forall w,
    (length (sys_argv w) <= 1 -> pre_build w = (Ok true, w)) /\
    (1 < length (sys_argv w) ->
     (last (sys_argv w) "" = "pre" -> pre_build w = (Ok true, w)) /\
     (last (sys_argv w) "" = "post" -> pre_build w = (Ok false, w)) /\
     (last (sys_argv w) "" <> "pre" -> last (sys_argv w) "" <> "post" ->
      pre_build w = (Raise ValueError, w) /\
      (forall c, run_item c w = (Raise ValueError, w)) /\
      (forall contribs,
         run_items contribs w
         = (map (fun _ => Raise ValueError) contribs, w)))).
Proof.
  intros w. unfold pre_build. split.
  - intros H. apply Nat.ltb_ge in H. rewrite H. reflexivity.
  - intros H. apply Nat.ltb_lt in H. rewrite H.
    split; [| split].
    + intros ->. reflexivity.
    + intros ->. reflexivity.
    + intros Hpre Hpost.
      assert (E : str_in (last (sys_argv w) "") ["pre"; "post"] = false).
      { unfold str_in. simpl.
        apply String.eqb_neq in Hpre, Hpost. rewrite Hpre, Hpost.
        reflexivity. }
      rewrite E. simpl negb. cbv iota.
      assert (Hfix : pre_build w = (Raise ValueError, w)).
      { unfold pre_build. rewrite H, E. reflexivity. }
      split; [reflexivity |]. split.
      * intros c. unfold run_item. rewrite run_bind, Hfix. reflexivity.
      * intros contribs. apply run_items_setup_error. exact Hfix.
Qed.

(** ** Discovery *)

Lemma combine_map_r {A B} (f : A -> B) (l : list A) :
  combine l (map f l) = map (fun a => (a, f a)) l.
Proof. induction l as [| a l IH]; simpl; [| rewrite IH]; reflexivity. Qed.

Lemma run_all_contribs w :
  all_contribs w =
  (names <- os_listdir (fs w) CONTRIB_FOLDER ;;
   ret (map (fun name => (name, CONTRIB_FOLDER ++ "/" ++ name)) names), w).
Proof.
  unfold all_contribs. rewrite run_bind, run_get_folder_content.
  destruct (os_listdir (fs w) CONTRIB_FOLDER) as [names | e]; simpl;
    [| reflexivity].
  unfold ret. simpl. rewrite combine_map_r. reflexivity.
Qed.

Lemma run_items_length :
  forall contribs w, length (fst (run_items contribs w)) = length contribs.
Proof.
  induction contribs as [| c rest IH]; intros w; [reflexivity |].
  simpl. destruct (run_item c w) as [r w1]. specialize (IH w1).
  destruct (run_items rest w1) as [rs w2]. simpl in *. rewrite IH.
  reflexivity.
Qed.

(** the world a run ends in does not depend on how the items are
    reported *)
Lemma main_world w :
  snd (main w) =
  match all_contribs w with
  | (Ok contribs, w1) => snd (run_items contribs w1)
  | (Raise e, w1) => w1
  end.
Proof.
  unfold main. destruct (all_contribs w) as [[[| c rest] | e] w1];
    try reflexivity.
  destruct (run_items (c :: rest) w1) as [rs w2]. reflexivity.
Qed.

Lemma test_contrib_unlistable name sub pb w e :
  os_listdir (fs w) sub = Raise e ->
  test_contrib (name, sub) pb w = (Raise e, w).
Proof.
  intros H. unfold test_contrib. apply run_bind_Raise.
  rewrite load_contrib_run, H. reflexivity.
Qed.

(** C6, as the code has it.  Discovery lists the contributions root and makes
    one contribution, hence one test item, of every entry, named after the
    entry and located at [contrib/<entry>]; nothing but these entries becomes
    a contribution.  No entry is left out for not being a folder: the test of
    such an entry raises when its content is listed, [NotADirectoryError] for
    a plain file and [FileNotFoundError] for an entry with nothing behind it,
    and has changed nothing. *)
Theorem discovery_lists_every_entry :
  forall w names,
    os_listdir (fs w) CONTRIB_FOLDER = Ok names ->
    let contribs :=
      map (fun name => (name, CONTRIB_FOLDER ++ "/" ++ name)) names in
    all_contribs w = (Ok contribs, w) /\
    (forall name path,
       In (name, path) contribs <->
       In name names /\ path = CONTRIB_FOLDER ++ "/" ++ name) /\
    (names <> [] ->
     fst (main w) = Ok (map Ran (fst (run_items contribs w)))) /\
    length (fst (run_items contribs w)) = length names /\
    (forall name pb,
       In name names ->
       In (name, CONTRIB_FOLDER ++ "/" ++ name) contribs /\
       (forall content,
          fs w (CONTRIB_FOLDER ++ "/" ++ name) = Some (File content) ->
          test_contrib (name, CONTRIB_FOLDER ++ "/" ++ name) pb w
          = (Raise NotADirectoryError, w)) /\
       (fs w (CONTRIB_FOLDER ++ "/" ++ name) = None ->
        test_contrib (name, CONTRIB_FOLDER ++ "/" ++ name) pb w
        = (Raise FileNotFoundError, w)) /\
       ((forall entries st_size,
           fs w (CONTRIB_FOLDER ++ "/" ++ name)
           <> Some (Dir entries st_size)) ->
        exists e,
          test_contrib (name, CONTRIB_FOLDER ++ "/" ++ name) pb w
          = (Raise e, w) /\
          (e = NotADirectoryError \/ e = FileNotFoundError))).
Proof.
  intros w names Hnames contribs.
  assert (Hall : all_contribs w = (Ok contribs, w))
    by (rewrite run_all_contribs, Hnames; reflexivity).
  assert (Hin : forall name path,
             In (name, path) contribs <->
             In name names /\ path = CONTRIB_FOLDER ++ "/" ++ name).
  { intros name path. unfold contribs. rewrite in_map_iff. split.
    - intros (n & E & Hn). injection E as <- <-. auto.
    - intros [Hn ->]. exists name. auto. }
  split; [exact Hall |]. split; [exact Hin |]. split; [| split].
  - intros Hne. unfold main. rewrite Hall.
    destruct names as [| n names']; [contradiction |].
    unfold contribs. simpl map at 1.
    destruct (run_items _ w) as [rs w2]. reflexivity.
  - rewrite run_items_length. apply length_map.
  - intros name pb Hn. split; [apply Hin; auto |].
    assert (Hfile : forall content,
               fs w (CONTRIB_FOLDER ++ "/" ++ name) = Some (File content) ->
               test_contrib (name, CONTRIB_FOLDER ++ "/" ++ name) pb w
               = (Raise NotADirectoryError, w)).
    { intros content E. apply test_contrib_unlistable.
      unfold os_listdir. rewrite E. reflexivity. }
    assert (Hnone : fs w (CONTRIB_FOLDER ++ "/" ++ name) = None ->
                    test_contrib (name, CONTRIB_FOLDER ++ "/" ++ name) pb w
                    = (Raise FileNotFoundError, w)).
    { intros E. apply test_contrib_unlistable.
      unfold os_listdir. rewrite E. reflexivity. }
    split; [exact Hfile |]. split; [exact Hnone |].
    intros Hnodir.
    destruct (fs w (CONTRIB_FOLDER ++ "/" ++ name))
      as [[content | entries st_size] |] eqn:E.
    + exists NotADirectoryError. split; [exact (Hfile content eq_refl) | auto].
    + exfalso. exact (Hnodir entries st_size eq_refl).
    + exists FileNotFoundError. split; [exact (Hnone eq_refl) | auto].
Qed.

(** ** The module resolution path *)

Lemma load_module_path pb name w :
  sys_path (snd (load_module pb name w)) =
  if pb then list_insert 1 CONTRIB_FOLDER (sys_path w) else sys_path w.
Proof.
  unfold load_module. destruct pb.
  - rewrite run_bind. unfold sys_path_insert, py_import, reading. simpl.
    reflexivity.
  - reflexivity.
Qed.

Lemma load_contrib_path c pb w :
  sys_path (snd (load_contrib c pb w)) =
  if pb && layout_ok (fs w) c
  then list_insert 1 CONTRIB_FOLDER (sys_path w)
  else sys_path w.
Proof.
  destruct c as [name sub]. rewrite load_contrib_run. unfold layout_ok.
  simpl fst. simpl snd.
  destruct (os_listdir (fs w) sub) as [names | e];
    [| rewrite andb_false_r; reflexivity].
  destruct (check_folder name names) as [[] | e];
    [| rewrite andb_false_r; reflexivity].
  simpl is_Ok. rewrite andb_true_r.
  pose proof (load_module_path pb name w) as Hp.
  destruct (load_module pb name w) as [[m | e] w3]; simpl in Hp.
  - destruct (check_exports m) as [[] | e]; exact Hp.
  - exact Hp.
Qed.

Lemma test_contrib_path c pb w :
  sys_path (snd (test_contrib c pb w)) =
  if pb && layout_ok (fs w) c
  then list_insert 1 CONTRIB_FOLDER (sys_path w)
  else sys_path w.
Proof.
  rewrite <- load_contrib_path. destruct c as [name sub].
  unfold test_contrib. rewrite run_bind.
  destruct (load_contrib (name, sub) pb w) as [[m | e] w3]; [| reflexivity].
  simpl snd at 2.
  apply (keeps_bind same_path same_path_trans).
  - apply keeps_probe_contrib;
      [exact same_path_refl | exact same_path_trans | exact same_path_called].
  - intros _. apply (keeps_bind same_path same_path_trans).
    + apply keeps_load_metadata; [exact same_path_refl | exact same_path_trans].
    + intros doc. apply (keeps_bind same_path same_path_trans).
      * apply keeps_pure. exact same_path_refl.
      * intros n. apply (keeps_bind same_path same_path_trans).
        -- apply keeps_check_examples;
             [exact same_path_refl | exact same_path_trans
             | exact same_path_called].
        -- intros _. apply keeps_check_licence;
             [exact same_path_refl | exact same_path_trans].
Qed.

Lemma run_items_path :
  forall contribs w,
    fst (pre_build w) = Ok true ->
    sys_path (snd (run_items contribs w)) =
    Nat.iter (length (filter (layout_ok (fs w)) contribs))
      (list_insert 1 CONTRIB_FOLDER) (sys_path w).
Proof.
  induction contribs as [| c rest IH]; intros w Hpre; [reflexivity |].
  simpl run_items. unfold run_item. rewrite run_bind.
  assert (Hrun : pre_build w = (Ok true, w)).
  { pose proof (pre_build_world w) as Hw.
    destruct (pre_build w) as [r w0]. simpl in Hpre, Hw.
    rewrite Hpre, Hw. reflexivity. }
  rewrite Hrun.
  pose proof (test_contrib_path c true w) as Hpath.
  pose proof (test_contrib_same_env c true w) as (Hfs & Hargv & _).
  destruct (test_contrib c true w) as [r w1]. simpl in Hpath, Hfs, Hargv.
  assert (Hpre1 : fst (pre_build w1) = Ok true).
  { rewrite (pre_build_argv w w1 Hargv). exact Hpre. }
  specialize (IH w1 Hpre1).
  destruct (run_items rest w1) as [rs w2]. simpl in IH |- *.
  rewrite IH, Hfs, Hpath. simpl andb.
  destruct (layout_ok (fs w) c); simpl length.
  - rewrite Nat.iter_succ_r. reflexivity.
  - reflexivity.
Qed.

Lemma length_list_insert {A} i (x : A) l :
  length (list_insert i x l) = S (length l).
Proof.
  unfold list_insert. rewrite length_app. simpl.
  rewrite Nat.add_succ_r, <- length_app, firstn_skipn. reflexivity.
Qed.

Lemma incl_list_insert {A} i (x : A) l : incl l (list_insert i x l).
Proof.
  unfold list_insert. intros a Ha.
  rewrite <- (firstn_skipn i l) in Ha. apply in_app_or in Ha.
  apply in_or_app. destruct Ha as [Ha | Ha]; [left | right; right]; exact Ha.
Qed.

(** C8, as the code has it.  In pre-packaging mode every contribution whose
    folder passes checks 1 and 2 has [contrib] inserted at index 1 of
    [sys.path] by its own test, and no other test touches the path: a run
    over [k] such contributions leaves [k] insertions, none of them undone
    and every earlier entry kept.  In post-packaging mode a test leaves the
    path as it was. *)
Theorem path_inserted_for_each_loaded_contribution :
  forall w contribs,
    fst (pre_build w) = Ok true ->
    fst (all_contribs w) = Ok contribs ->
    let k := length (filter (layout_ok (fs w)) contribs) in
    sys_path (snd (main w))
    = Nat.iter k (list_insert 1 CONTRIB_FOLDER) (sys_path w) /\
    length (sys_path (snd (main w))) = length (sys_path w) + k /\
    incl (sys_path w) (sys_path (snd (main w))) /\
    (forall c w0,
       sys_path (snd (test_contrib c true w0)) =
       if layout_ok (fs w0) c
       then list_insert 1 CONTRIB_FOLDER (sys_path w0)
       else sys_path w0) /\
    (forall c w0, sys_path (snd (test_contrib c false w0)) = sys_path w0).
Proof.
  intros w contribs Hpre Hall k.
  assert (Hmain : sys_path (snd (main w))
                  = Nat.iter k (list_insert 1 CONTRIB_FOLDER) (sys_path w)).
  { rewrite main_world. rewrite run_all_contribs in Hall |- *.
    destruct (os_listdir (fs w) CONTRIB_FOLDER) as [names | e];
      [| discriminate Hall].
    simpl in Hall |- *. injection Hall as Hall. rewrite Hall.
    exact (run_items_path contribs w Hpre). }
  split; [exact Hmain |]. rewrite Hmain. split; [| split; [| split]].
  - clear. induction k as [| k IH]; simpl; [lia |].
    rewrite length_list_insert, IH. lia.
  - clear. induction k as [| k IH]; simpl; [apply incl_refl |].
    eapply incl_tran; [exact IH | apply incl_list_insert].
  - intros c w0. apply (test_contrib_path c true w0).
  - intros c w0. apply (test_contrib_path c false w0).
Qed.

End Properties.

(** * Further properties of the validator *)

Section Further.
Context {R : Runtime}.

(** ** Checks 1 and 2: the layout of the folder *)

Lemma check_folder_run name names :
  check_folder name names =
  if str_in (name ++ ".py") names
     && forallb (fun file => str_in file names) required_files
  then Ok tt else Raise AssertionError.
Proof.
  unfold check_folder. change (@bind result _ unit unit
    (assert (str_in (name ++ ".py") names))
    (fun _ => for_each (m := result) required_files
                (fun file => assert (str_in file names))))
    with (match assert (str_in (name ++ ".py") names) with
          | Ok _ => for_each (m := result) required_files
                      (fun file => assert (str_in file names))
          | Raise e => Raise e
          end).
  rewrite (for_each_asserts (fun file => str_in file names)).
  destruct (str_in (name ++ ".py") names); reflexivity.
Qed.

(** X1. With the folder listed, checks 1 and 2 pass exactly when the folder
    holds [<name>.py], README.md, LICENCE, metadata.yml and __init__.py; when
    one is missing [test_contrib] raises [AssertionError] and has changed
    nothing: no path insertion, no import, no call. *)
Theorem layout_needs_main_file_and_required_files :
  forall name sub pb w names,
    os_listdir (fs w) sub = Ok names ->
    required_files = ["README.md"; "LICENCE"; "metadata.yml"; "__init__.py"] /\
    (check_folder name names = Ok tt <->
     In (name ++ ".py") names /\ incl required_files names) /\
    (~ (In (name ++ ".py") names /\ incl required_files names) ->
     test_contrib (name, sub) pb w = (Raise AssertionError, w)).
Proof.
  intros name sub pb w names Hnames. split; [reflexivity |].
  assert (Hiff : str_in (name ++ ".py") names
                 && forallb (fun file => str_in file names) required_files
                 = true
                 <-> In (name ++ ".py") names /\ incl required_files names).
  { rewrite andb_true_iff, str_in_In, forallb_forall. unfold incl.
    split; intros [H1 H2]; (split; [exact H1 |]);
      intros f Hf; apply str_in_In, H2, Hf. }
  split.
  - rewrite check_folder_run, <- Hiff.
    destruct (str_in (name ++ ".py") names
              && forallb (fun file => str_in file names) required_files);
      split; intros E; try reflexivity; discriminate E.
  - intros Hnot. unfold test_contrib. apply run_bind_Raise.
    rewrite load_contrib_run, Hnames, check_folder_run.
    destruct (str_in (name ++ ".py") names
              && forallb (fun file => str_in file names) required_files)
      eqn:E; [| reflexivity].
    exfalso. apply Hnot, Hiff. reflexivity.
Qed.

(** ** Check 3: the import *)

Lemma run_load_module pb name w :
  load_module pb name w =
  (import_module w (import_path pb w) (import_name pb name),
   {| fs := fs w; sys_argv := sys_argv w; sys_path := import_path pb w;
      import_module := import_module w; state := state w;
      trace := trace w |}).
Proof. destruct pb, w; reflexivity. Qed.

(** X2. Once checks 1 and 2 have passed, the contribution is imported by its
    bare name under [sys.path] with [contrib] inserted at index 1 (the first
    entry stays first) in pre-packaging mode, and as
    [cofi-espresso.<name>] under the unchanged path in post-packaging mode.
    An import that raises makes [test_contrib] raise the same exception,
    without any call into a contribution. *)
Theorem import_follows_the_mode :
  forall name sub pb w names,
    os_listdir (fs w) sub = Ok names ->
    check_folder name names = Ok tt ->
    import_name true name = name /\
    import_name false name = "cofi-espresso." ++ name /\
    import_path false w = sys_path w /\
    (forall first rest,
       sys_path w = first :: rest ->
       import_path true w = first :: "contrib" :: rest) /\
    fst (load_module pb name w)
    = import_module w (import_path pb w) (import_name pb name) /\
    (forall e,
       import_module w (import_path pb w) (import_name pb name) = Raise e ->
       exists w',
         test_contrib (name, sub) pb w = (Raise e, w') /\
         sys_path w' = import_path pb w /\
         trace w' = trace w /\ state w' = state w).
Proof.
  intros name sub pb w names Hnames Hfolder.
  split; [reflexivity |]. split; [reflexivity |]. split; [reflexivity |].
  split; [intros first rest E; unfold import_path; rewrite E; reflexivity |].
  split; [rewrite run_load_module; reflexivity |].
  intros e He. eexists. split.
  - unfold test_contrib. apply run_bind_Raise.
    rewrite load_contrib_run, Hnames, Hfolder, run_load_module, He.
    reflexivity.
  - repeat split.
Qed.




(** ** Check 4: a required function that raises *)

Lemma test_contrib_required_raises name sub pb w0 m w e w' :
  load_contrib (name, sub) pb w0 = (Ok m, w) ->
  required_functions m w = (Raise e, w') ->
  test_contrib (name, sub) pb w0 = (Raise e, w').
Proof.
  intros Hload Hreq. rewrite (test_contrib_after_load _ _ _ _ _ _ Hload).
  unfold probe_contrib. rewrite run_bind.
  rewrite (run_bind_Raise _ _ _ _ _ Hreq). reflexivity.
Qed.

(** X4. The required functions have no escape hatch: whatever
    [set_example_number(0)], [suggested_model()], [data()] or
    [forward(model)] raises, [NotImplementedError] included, check 4 raises
    it at once, in the world left by the raising call, so that no later
    function is called; and [test_contrib] raises it too. *)
Theorem required_function_must_not_raise :
  forall m w e,
    (forall w1,
       call_set_example_number m 0 w = (Raise e, w1) ->
       required_functions m w = (Raise e, w1)) /\
    (forall w1 w2,
       call_set_example_number m 0 w = (Ok tt, w1) ->
       call_suggested_model m w1 = (Raise e, w2) ->
       required_functions m w = (Raise e, w2)) /\
    (forall w1 x w2 w3,
       call_set_example_number m 0 w = (Ok tt, w1) ->
       call_suggested_model m w1 = (Ok x, w2) ->
       call_data m w2 = (Raise e, w3) ->
       required_functions m w = (Raise e, w3)) /\
    (forall w1 x w2 d w3 w4,
       call_set_example_number m 0 w = (Ok tt, w1) ->
       call_suggested_model m w1 = (Ok x, w2) ->
       call_data m w2 = (Ok d, w3) ->
       call_forward m x None w3 = (Raise e, w4) ->
       required_functions m w = (Raise e, w4)) /\
    (forall c pb w0 w',
       load_contrib c pb w0 = (Ok m, w) ->
       required_functions m w = (Raise e, w') ->
       test_contrib c pb w0 = (Raise e, w')).
Proof.
  intros m w e. unfold required_functions. repeat split.
  - intros w1 H1. apply run_bind_Raise. exact H1.
  - intros w1 w2 H1 H2. rewrite (run_bind_Ok _ _ _ _ _ H1).
    apply run_bind_Raise. exact H2.
  - intros w1 x w2 w3 H1 H2 H3.
    rewrite (run_bind_Ok _ _ _ _ _ H1), (run_bind_Ok _ _ _ _ _ H2).
    apply run_bind_Raise. exact H3.
  - intros w1 x w2 d w3 w4 H1 H2 H3 H4.
    rewrite (run_bind_Ok _ _ _ _ _ H1), (run_bind_Ok _ _ _ _ _ H2),
      (run_bind_Ok _ _ _ _ _ H3).
    apply run_bind_Raise. exact H4.
  - intros [name sub] pb w0 w' Hload Hreq.
    exact (test_contrib_required_raises _ _ _ _ _ _ _ _ Hload Hreq).
Qed.

(** ** Check 5: the shape of [forward(model, with_jacobian=True)] *)

(** X5. When [forward(model, with_jacobian=True)] returns, its result is
    destructured into two names: a value that is not iterable makes the probe
    raise [TypeError], an iterable of any other number of items than two
    [ValueError], and neither is taken for the not-implemented signal; with
    exactly two items the probe is the two array-like assertions.  Whatever
    else the iteration raises is raised too, except [NotImplementedError],
    which the [try] swallows. *)
Theorem forward_with_jacobian_must_return_two_parts :
  forall m x w v w1,
    call_forward m x (Some true) w = (Ok v, w1) ->
    (items_of v = Raise TypeError ->
     probe_forward_with_jacobian m x w = (Raise TypeError, w1)) /\
    (forall items,
       items_of v = Ok items -> length items <> 2 ->
       probe_forward_with_jacobian m x w = (Raise ValueError, w1)) /\
    (forall a b,
       items_of v = Ok [a; b] ->
       probe_forward_with_jacobian m x w
       = (assert_array_like a ;; assert_array_like b, w1)) /\
    (forall e,
       items_of v = Raise e ->
       probe_forward_with_jacobian m x w
       = (if is_NotImplementedError e then Ok tt else Raise e, w1)).
Proof.
  intros m x w v w1 Hcall.
  rewrite probe_forward_with_jacobian_run, Hcall. unfold check_two_parts.
  repeat split.
  - intros ->. reflexivity.
  - intros items -> Hlen.
    destruct items as [| a [| b [| c l]]]; try reflexivity.
    exfalso. apply Hlen. reflexivity.
  - intros a b ->. reflexivity.
  - intros e ->. reflexivity.
Qed.

(** ** The calls of a passing run *)








Lemma load_metadata_fs sub w w' :
  fs w' = fs w -> fst (load_metadata sub w') = fst (load_metadata sub w).
Proof.
  intros E. unfold load_metadata. rewrite !run_bind. unfold reading.
  rewrite E. destruct (open_r (fs w) (sub ++ "/metadata.yml")); reflexivity.
Qed.



(** ** Check 6: the metadata document *)

Lemma result_bind_Ok {A B} (a : A) (k : A -> result B) :
  (x <- Ok a ;; k x) = k a.
Proof. reflexivity. Qed.

Lemma seq_Ok_iff (a b : result unit) :
  (a ;; b) = Ok tt <-> a = Ok tt /\ b = Ok tt.
Proof.
  simpl. destruct a as [[] | e]; split.
  - auto.
  - intros [_ E]. exact E.
  - discriminate.
  - intros [E _]. discriminate E.
Qed.

Lemma py_getitem_Ok doc k v :
  py_getitem doc k = Ok v <->
  exists pairs, doc = YMap pairs /\ assoc k pairs = Some v.
Proof.
  split.
  - destruct doc; simpl; try discriminate.
    destruct (assoc k pairs) as [v' |] eqn:E; [| discriminate].
    intros H. injection H as <-. eauto.
  - intros (pairs & -> & E). simpl. rewrite E. reflexivity.
Qed.

Lemma record_has_keys example :
  (assert_in "description" example ;;
   assert_in "model_dimension" example ;;
   assert_in "data_dimension" example) = Ok tt <->
  py_in "description" example = Ok true /\
  py_in "model_dimension" example = Ok true /\
  py_in "data_dimension" example = Ok true.
Proof. rewrite !seq_Ok_iff, !assert_in_iff. reflexivity. Qed.

(** X7. The checks on the required keys pass, with count [n], exactly for a
    mapping that has the keys [name], [short_description], [authors] and
    [examples], whose [examples] has length [n] and can be iterated, every
    item visited having [description], [model_dimension] and
    [data_dimension].  A document that is not a mapping never passes. *)
Theorem required_keys_pass_iff :
  forall doc n,
    check_required_keys doc = Ok n <->
    exists pairs examples records,
      doc = YMap pairs /\
      (forall k,
         In k ["name"; "short_description"; "authors"; "examples"] ->
         py_in k doc = Ok true) /\
      assoc "examples" pairs = Some examples /\
      py_len examples = Ok n /\
      py_iter examples = Ok records /\
      (forall example,
         In example records ->
         py_in "description" example = Ok true /\
         py_in "model_dimension" example = Ok true /\
         py_in "data_dimension" example = Ok true).
Proof.
  intros doc n. split.
  - intros H. unfold check_required_keys in H.
    apply bind_result_Ok_inv in H. destruct H as ([] & Hkeys & H).
    apply bind_result_Ok_inv in H. destruct H as (ex & Hex & H).
    apply bind_result_Ok_inv in H. destruct H as (n' & Hlen & H).
    apply bind_result_Ok_inv in H. destruct H as (ex' & Hex' & H).
    apply bind_result_Ok_inv in H. destruct H as (records & Hiter & H).
    apply bind_result_Ok_inv in H. destruct H as ([] & Hrec & H).
    simpl in H. injection H as H. subst n'.
    rewrite Hex in Hex'. injection Hex' as <-.
    apply py_getitem_Ok in Hex. destruct Hex as (pairs & -> & Hassoc).
    exists pairs, ex, records. split; [reflexivity |].
    split; [| split; [exact Hassoc | split; [exact Hlen |
                                              split; [exact Hiter |]]]].
    + intros k Hk. apply assert_in_iff.
      exact (proj1 (for_each_result_all _ _) Hkeys k Hk).
    + intros example Hin. apply record_has_keys.
      exact (proj1 (for_each_result_all _ _) Hrec example Hin).
  - intros (pairs & ex & records & -> & Hkeys & Hassoc & Hlen & Hiter & Hrec).
    assert (Hfor : for_each (m := result)
                     ["name"; "short_description"; "authors"; "examples"]
                     (fun k => assert_in k (YMap pairs)) = Ok tt).
    { apply for_each_result_all. intros k Hk. apply assert_in_iff, Hkeys, Hk. }
    assert (Hrecs : for_each (m := result) records
                      (fun example =>
                         assert_in "description" example ;;
                         assert_in "model_dimension" example ;;
                         assert_in "data_dimension" example) = Ok tt).
    { apply for_each_result_all. intros example Hin.
      apply record_has_keys, Hrec, Hin. }
    assert (Hget : py_getitem (YMap pairs) "examples" = Ok ex)
      by (apply py_getitem_Ok; eauto).
    unfold check_required_keys.
    rewrite Hfor, result_bind_Ok, Hget, result_bind_Ok, Hlen, result_bind_Ok,
      result_bind_Ok, Hiter, result_bind_Ok, Hrecs, result_bind_Ok.
    reflexivity.
Qed.

Lemma check_metadata_Raise doc e :
  check_required_keys doc = Raise e -> check_metadata doc = Raise e.
Proof. intros H. unfold check_metadata. rewrite H. reflexivity. Qed.

Lemma required_keys_of_mapping pairs :
  for_each (m := result) ["name"; "short_description"; "authors"; "examples"]
    (fun k => assert_in k (YMap pairs)) =
  if forallb (fun k => existsb (fun kv => is_str k (fst kv)) pairs)
       ["name"; "short_description"; "authors"; "examples"]
  then Ok tt else Raise AssertionError.
Proof.
  rewrite <- (for_each_asserts
                (fun k => existsb (fun kv => is_str k (fst kv)) pairs)).
  reflexivity.
Qed.

Lemma check_metadata_of_string s0 :
  check_metadata (YStr s0) =
  if forallb (fun k => str_contains k s0)
       ["name"; "short_description"; "authors"; "examples"]
  then Raise TypeError else Raise AssertionError.
Proof.
  assert (Hfor : for_each (m := result)
                   ["name"; "short_description"; "authors"; "examples"]
                   (fun k => assert_in k (YStr s0)) =
                 if forallb (fun k => str_contains k s0)
                      ["name"; "short_description"; "authors"; "examples"]
                 then Ok tt else Raise AssertionError)
    by (rewrite <- (for_each_asserts (fun k => str_contains k s0));
        reflexivity).
  unfold check_metadata, check_required_keys. rewrite Hfor.
  destruct (forallb (fun k => str_contains k s0)
              ["name"; "short_description"; "authors"; "examples"]);
    reflexivity.
Qed.

Lemma check_metadata_of_sequence items :
  check_metadata (YSeq items) =
  if forallb (fun k => existsb (is_str k) items)
       ["name"; "short_description"; "authors"; "examples"]
  then Raise TypeError else Raise AssertionError.
Proof.
  assert (Hfor : for_each (m := result)
                   ["name"; "short_description"; "authors"; "examples"]
                   (fun k => assert_in k (YSeq items)) =
                 if forallb (fun k => existsb (is_str k) items)
                      ["name"; "short_description"; "authors"; "examples"]
                 then Ok tt else Raise AssertionError)
    by (rewrite <- (for_each_asserts (fun k => existsb (is_str k) items));
        reflexivity).
  unfold check_metadata, check_required_keys. rewrite Hfor.
  destruct (forallb (fun k => existsb (is_str k) items)
              ["name"; "short_description"; "authors"; "examples"]);
    reflexivity.
Qed.

(** X8. How the schema check fails on a document without the required
    shape.  An empty document (parsed as [None]), a boolean, an integer or a
    float raises [TypeError].  A mapping lacking one of [name],
    [short_description], [authors], [examples] raises [AssertionError].  A
    string or a list raises [AssertionError] unless each of the four names
    occurs in it, as a substring or as an item, and then [TypeError], at the
    subscript.  So a document that is not a mapping raises one of the two and
    never passes. *)
Theorem metadata_must_be_a_mapping_with_required_keys :
  forall doc,
    check_metadata YNull = Raise TypeError /\
    (forall b z repr,
       check_metadata (YBool b) = Raise TypeError /\
       check_metadata (YInt z) = Raise TypeError /\
       check_metadata (YFloat repr) = Raise TypeError) /\
    (forall pairs k,
       doc = YMap pairs ->
       In k ["name"; "short_description"; "authors"; "examples"] ->
       py_in k doc = Ok false ->
       check_metadata doc = Raise AssertionError) /\
    (forall s,
       doc = YStr s ->
       check_metadata doc =
       if forallb (fun k => str_contains k s)
            ["name"; "short_description"; "authors"; "examples"]
       then Raise TypeError else Raise AssertionError) /\
    (forall items,
       doc = YSeq items ->
       check_metadata doc =
       if forallb (fun k => existsb (is_str k) items)
            ["name"; "short_description"; "authors"; "examples"]
       then Raise TypeError else Raise AssertionError) /\
    ((forall pairs, doc <> YMap pairs) ->
     check_metadata doc = Raise TypeError \/
     check_metadata doc = Raise AssertionError).
Proof.
  intros doc. split; [reflexivity |]. split; [intros; repeat split |].
  split; [| split; [| split]].
  - intros pairs k -> Hk Hmiss. apply check_metadata_Raise.
    unfold check_required_keys. rewrite required_keys_of_mapping.
    destruct (forallb (fun k => existsb (fun kv => is_str k (fst kv)) pairs)
                ["name"; "short_description"; "authors"; "examples"]) eqn:E;
      [| reflexivity].
    rewrite forallb_forall in E. specialize (E k Hk).
    simpl in Hmiss. rewrite E in Hmiss. discriminate Hmiss.
  - intros s0 ->. apply check_metadata_of_string.
  - intros items ->. apply check_metadata_of_sequence.
  - intros Hnot.
    destruct doc as [| b | z | repr | s0 | items | pairs];
      try (left; reflexivity).
    + rewrite check_metadata_of_string.
      destruct (forallb _ _); [left | right]; reflexivity.
    + rewrite check_metadata_of_sequence.
      destruct (forallb _ _); [left | right]; reflexivity.
    + exfalso. exact (Hnot pairs eq_refl).
Qed.

Lemma py_in_mapping k pairs :
  py_in k (YMap pairs) =
  Ok (match assoc k pairs with Some _ => true | None => false end).
Proof.
  simpl. f_equal. induction pairs as [| [k' v] pairs IH]; [reflexivity |].
  simpl. destruct (is_str k k'); [reflexivity | exact IH].
Qed.

(** an optional section that is a sequence of records with two required
    keys *)
Lemma records_section_Ok pairs k k1 k2 :
  (if match assoc k pairs with Some _ => true | None => false end
   then records <- py_getitem (YMap pairs) k ;;
        items <- py_iter records ;;
        for_each (m := result) items (fun record =>
          assert_in k1 record ;; assert_in k2 record)
   else ret tt) = Ok tt <->
  (forall records,
     assoc k pairs = Some records ->
     exists items,
       py_iter records = Ok items /\
       forall record,
         In record items ->
         py_in k1 record = Ok true /\ py_in k2 record = Ok true).
Proof.
  unfold py_getitem. destruct (assoc k pairs) as [records |].
  - rewrite result_bind_Ok. split.
    + intros H r E. injection E as <-.
      apply bind_result_Ok_inv in H. destruct H as (items & Hiter & Hfor).
      exists items. split; [exact Hiter |]. intros record Hin.
      rewrite <- !assert_in_iff, <- seq_Ok_iff.
      exact (proj1 (for_each_result_all _ _) Hfor record Hin).
    + intros H. destruct (H records eq_refl) as (items & Hiter & Hall).
      rewrite Hiter, result_bind_Ok. apply for_each_result_all.
      intros record Hin. rewrite seq_Ok_iff, !assert_in_iff.
      exact (Hall record Hin).
  - split; [intros _ r E; discriminate E | reflexivity].
Qed.

(** X9. On a mapping, the checks of the optional sections pass exactly
    when: [citation], if present, has [doi]; [contacts], if present, can be
    iterated and every item has [name] and [email]; [extra_websites], if
    present, can be iterated and every item has [name] and [link].  No other
    key is looked at: a mapping with none of the three sections passes. *)
Theorem optional_sections_pass_iff :
  forall pairs,
    (check_optional_sections (YMap pairs) = Ok tt <->
     (forall citation,
        assoc "citation" pairs = Some citation ->
        py_in "doi" citation = Ok true) /\
     (forall contacts,
        assoc "contacts" pairs = Some contacts ->
        exists items,
          py_iter contacts = Ok items /\
          forall contact,
            In contact items ->
            py_in "name" contact = Ok true /\
            py_in "email" contact = Ok true) /\
     (forall websites,
        assoc "extra_websites" pairs = Some websites ->
        exists items,
          py_iter websites = Ok items /\
          forall website,
            In website items ->
            py_in "name" website = Ok true /\
            py_in "link" website = Ok true)) /\
    (assoc "citation" pairs = None ->
     assoc "contacts" pairs = None ->
     assoc "extra_websites" pairs = None ->
     check_optional_sections (YMap pairs) = Ok tt /\
     check_metadata (YMap pairs) = check_required_keys (YMap pairs)).
Proof.
  intros pairs.
  assert (Hiff : check_optional_sections (YMap pairs) = Ok tt <->
     (forall citation,
        assoc "citation" pairs = Some citation ->
        py_in "doi" citation = Ok true) /\
     (forall contacts,
        assoc "contacts" pairs = Some contacts ->
        exists items,
          py_iter contacts = Ok items /\
          forall contact,
            In contact items ->
            py_in "name" contact = Ok true /\
            py_in "email" contact = Ok true) /\
     (forall websites,
        assoc "extra_websites" pairs = Some websites ->
        exists items,
          py_iter websites = Ok items /\
          forall website,
            In website items ->
            py_in "name" website = Ok true /\
            py_in "link" website = Ok true)).
  { unfold check_optional_sections.
    rewrite !py_in_mapping, !result_bind_Ok, !seq_Ok_iff.
    rewrite (records_section_Ok pairs "contacts" "name" "email").
    rewrite (records_section_Ok pairs "extra_websites" "name" "link").
    apply and_iff_compat_r.
    unfold py_getitem. destruct (assoc "citation" pairs) as [citation |].
    - rewrite result_bind_Ok, assert_in_iff. split.
      + intros H c E. injection E as <-. exact H.
      + intros H. exact (H citation eq_refl).
    - split; [intros _ c E; discriminate E | reflexivity]. }
  split; [exact Hiff |].
  intros H1 H2 H3.
  assert (Hok : check_optional_sections (YMap pairs) = Ok tt).
  { apply Hiff. rewrite H1, H2, H3.
    repeat split; intros x E; discriminate E. }
  split; [exact Hok |].
  unfold check_metadata. rewrite Hok.
  destruct (check_required_keys (YMap pairs)); reflexivity.
Qed.

(** X10. The metadata file is opened and parsed after checks 1 to 5: a
    missing file gives [FileNotFoundError], a directory in its place
    [IsADirectoryError], a text PyYAML rejects the parser's exception.  In
    each case [test_contrib] raises, in the world left by checks 1 to 5, so
    the loop of check 7 makes no call; when checks 1 to 5 pass, the exception
    is the one of the file. *)
Theorem unreadable_metadata_fails :
  forall c pb w,
    fst (load_metadata (snd c) w) =
      match fs w (snd c ++ "/metadata.yml") with
      | Some (File text) => yaml_safe_load text
      | Some (Dir _ _) => Raise IsADirectoryError
      | None => Raise FileNotFoundError
      end /\
    (forall e,
       fst (load_metadata (snd c) w) = Raise e ->
       exists e',
         test_contrib c pb w = (Raise e', snd (before_metadata c pb w)) /\
         (fst (before_metadata c pb w) = Ok tt -> e' = e)).
Proof.
  intros [name sub] pb w. simpl snd. split.
  - unfold load_metadata. rewrite run_bind. unfold reading, open_r.
    destruct (fs w (sub ++ "/metadata.yml")) as [[text | entries size] |];
      reflexivity.
  - intros e He.
    destruct (before_metadata (name, sub) pb w) as [[[] | e'] w5] eqn:Hb.
    + exists e. split; [| reflexivity]. simpl snd.
      destruct (before_metadata_Ok_inv _ _ _ _ Hb)
        as (m & w3 & Hload & Hprobe).
      rewrite (test_contrib_after_probe _ _ _ _ _ _ _ Hload Hprobe).
      pose proof (before_metadata_same_env (name, sub) pb w) as (Hfs & _).
      rewrite Hb in Hfs. simpl in Hfs.
      rewrite run_bind, load_metadata_run, (load_metadata_fs _ _ _ Hfs), He.
      reflexivity.
    + exists e'. split; [| discriminate].
      apply test_contrib_fails_before. exact Hb.
Qed.

(** ** The command line, again *)

(** X11. Of a command line with arguments only the last one is read:
    whatever stands between the program name and it, [pre] selects
    pre-packaging mode, [post] post-packaging mode, and any other last
    argument raises [ValueError]; the fixture changes nothing. *)
Theorem pre_build_reads_only_the_last_argument :
  forall w prog args a,
    sys_argv w = prog :: args ++ [a] ->
    pre_build w =
    (if String.eqb a "pre" then Ok true
     else if String.eqb a "post" then Ok false
     else Raise ValueError, w).
Proof.
  intros w prog args a Hargv. unfold pre_build. rewrite Hargv.
  assert (Hlen : (1 <? length (prog :: args ++ [a]))%nat = true).
  { apply Nat.ltb_lt. simpl. rewrite length_app. simpl. lia. }
  rewrite Hlen.
  change (prog :: args ++ [a])%list with ((prog :: args) ++ [a])%list.
  rewrite last_last. unfold str_in. simpl existsb.
  destruct (String.eqb a "pre") eqn:Epre.
  - apply String.eqb_eq in Epre. subst a. reflexivity.
  - destruct (String.eqb a "post") eqn:Epost.
    + apply String.eqb_eq in Epost. subst a. reflexivity.
    + reflexivity.
Qed.

(** ** The export list of magnetotelluric_1D *)

(** X12. A module whose export list is the one of
    contrib/magnetotelluric_1D/__init__.py, [["Magnetotelluric1D"]], fails
    the export-list check with [AssertionError]; a run that imports such a
    module raises it before any function of the contribution is called. *)
Theorem magnetotelluric_export_list_is_rejected :
  forall m,
    __all__ m = Ok (YSeq [YStr "Magnetotelluric1D"]) ->
    check_exports m = Raise AssertionError /\
    (forall name sub pb w names,
       os_listdir (fs w) sub = Ok names ->
       check_folder name names = Ok tt ->
       fst (load_module pb name w) = Ok m ->
       exists w3,
         test_contrib (name, sub) pb w = (Raise AssertionError, w3) /\
         trace w3 = trace w /\ state w3 = state w).
Proof.
  intros m Hall.
  assert (Hc : check_exports m = Raise AssertionError)
    by (rewrite check_exports_run, Hall; reflexivity).
  split; [exact Hc |].
  intros name sub pb w names Hnames Hfolder Hmod.
  rewrite run_load_module in Hmod. simpl in Hmod.
  eexists. split.
  - unfold test_contrib. apply run_bind_Raise.
    rewrite load_contrib_run, Hnames, Hfolder, run_load_module, Hmod, Hc.
    reflexivity.
  - split; reflexivity.
Qed.

(** ** Discovery at the edges *)

(** X13. Discovery fails the whole run when the contributions root cannot be
    listed: [FileNotFoundError] when there is no [contrib],
    [NotADirectoryError] when it is a file; no test item is made.  An empty
    root gives a run of the single skipped item pytest makes of an empty
    parameter list, which touches nothing. *)
Theorem discovery_needs_a_listable_root :
  forall w,
    (fs w CONTRIB_FOLDER = None -> main w = (Raise FileNotFoundError, w)) /\
    (forall content,
       fs w CONTRIB_FOLDER = Some (File content) ->
       main w = (Raise NotADirectoryError, w)) /\
    (forall st_size,
       fs w CONTRIB_FOLDER = Some (Dir [] st_size) ->
       main w = (Ok [Skipped], w)).
Proof.
  intros w. unfold main. rewrite run_all_contribs. unfold os_listdir.
  repeat split.
  - intros ->. reflexivity.
  - intros content ->. reflexivity.
  - intros st_size ->. reflexivity.
Qed.

(** ** Post-packaging mode *)

Lemma run_items_post :
  forall contribs w,
    fst (pre_build w) = Ok false ->
    sys_path (snd (run_items contribs w)) = sys_path w.
Proof.
  induction contribs as [| c rest IH]; intros w Hpre; [reflexivity |].
  simpl run_items. unfold run_item. rewrite run_bind.
  assert (Hrun : pre_build w = (Ok false, w)).
  { pose proof (pre_build_world w) as Hw.
    destruct (pre_build w) as [r w0]. simpl in Hpre, Hw.
    rewrite Hpre, Hw. reflexivity. }
  rewrite Hrun.
  pose proof (test_contrib_path c false w) as Hpath.
  pose proof (test_contrib_same_env c false w) as (_ & Hargv & _).
  destruct (test_contrib c false w) as [r w1]. simpl in Hpath, Hargv.
  assert (Hpre1 : fst (pre_build w1) = Ok false).
  { rewrite (pre_build_argv w w1 Hargv). exact Hpre. }
  specialize (IH w1 Hpre1).
  destruct (run_items rest w1) as [rs w2]. simpl in IH |- *.
  rewrite IH. exact Hpath.
Qed.

(** X14. In post-packaging mode the validator makes no insertion into
    [sys.path]: over a whole run, whatever the number of contributions and
    the outcome of their tests, the path the validator leaves is the one it
    found.  (What the code of a contribution may itself do to the path is
    outside the model.) *)
Theorem post_mode_run_keeps_sys_path :
  forall w,
    fst (pre_build w) = Ok false ->
    sys_path (snd (main w)) = sys_path w.
Proof.
  intros w Hpre. rewrite main_world, run_all_contribs.
  destruct (os_listdir (fs w) CONTRIB_FOLDER) as [names | e]; simpl;
    [| reflexivity].
  exact (run_items_post
           (map (fun name => (name, CONTRIB_FOLDER ++ "/" ++ name)) names)
           w Hpre).
Qed.

End Further.

(** * The statements on concrete runs *)

Module Runs.
Import Demo.

(** The end-to-end scenario of the specification: all seven names exported,
    the optional functions not implemented, two examples declared.  The run
    passes and touches examples 0 and 1. *)
Example two_examples_pass :
  fst (main w0) = Ok [Ran (Ok tt)] /\
  trace (snd (main w0)) =
    [Call_set_example_number 0; Call_suggested_model; Call_data;
     Call_forward (VArray [3%nat]) None;
     Call_forward (VArray [3%nat]) (Some true);
     Call_jacobian (VArray [3%nat]);
     Call_plot_model (VArray [3%nat]); Call_plot_data (VArray [5%nat]);
     Call_set_example_number 0; Call_set_example_number 1].
Proof. split; reflexivity. Qed.

(** C1 on [gravity]: its three results are array-like and check 4 passes. *)
Lemma required_results_witness :
  (required_functions gravity w3
   = (Ok (VArray [3%nat], VArray [5%nat]), w4) <->
   all_array_like (VArray [3%nat]) (VArray [5%nat]) (VArray [5%nat])) /\
  all_array_like (VArray [3%nat]) (VArray [5%nat]) (VArray [5%nat]).
Proof.
  pose proof (required_results_must_be_array_like gravity w3 w3a w3b w3c w4
                (VArray [3%nat]) (VArray [5%nat]) (VArray [5%nat])
                eq_refl eq_refl eq_refl eq_refl) as (H & _).
  split; [exact H | apply H; reflexivity].
Defined.

Example scalar_model_fails :
  fst (required_functions flat w3) = Raise AssertionError.
Proof. reflexivity. Qed.

(** C2 as worded fails: with a lookup of [jacobian] that raises
    [NotImplementedError] the probe passes and nothing was called. *)
Lemma probe_passes_without_a_call :
  ~ passes_only_on_a_call lazy (VArray [3%nat]) w4.
Proof.
  intros H. destruct (H eq_refl) as (f & E & _). discriminate E.
Qed.

Example lazy_jacobian_run :
  probe_jacobian lazy (VArray [3%nat]) w4 = (Ok tt, w4).
Proof. reflexivity. Qed.

(** C2 on [gravity]: [jacobian] is found, run, and raises
    [NotImplementedError]; the probe passes in the world the call left. *)
Lemma optional_probes_witness :
  fst (probe_jacobian gravity (VArray [3%nat]) w4) = Ok tt /\
  snd (probe_jacobian gravity (VArray [3%nat]) w4)
  = called w4 (state w4) [Call_jacobian (VArray [3%nat])].
Proof.
  destruct (optional_probes_accept_two_outcomes gravity
              (VArray [3%nat]) (VArray [5%nat]) w4)
    as (_ & (_ & Hok) & _).
  destruct (Hok (fun _ => not_implemented) eq_refl) as (Hw & Hiff & _).
  split; [apply Hiff; left; reflexivity | exact Hw].
Defined.

(** C3 on [gravity]: two examples declared, both calls return. *)
Lemma cross_check_witness :
  exists f,
    mod_set_example_number gravity = Ok f /\
    check_examples gravity 2 w5
    = (Ok tt, called w5 (heap_after f 2 (state w5)) (example_calls 2)).
Proof.
  destruct (cross_check_calls_every_example the_gravity true w0 gravity w3 w5
              (metadata_of [example_record; example_record])
              [example_record; example_record] 2
              eq_refl eq_refl eq_refl eq_refl eq_refl)
    as (_ & _ & _ & f & Hf & Hall & _).
  exists f. split; [exact Hf |]. apply Hall.
  injection Hf as <-. intros [| [| i]] Hi; [reflexivity | reflexivity |].
  do 2 apply le_S_n in Hi. inversion Hi.
Defined.

(** C4 as worded fails: a string in which every name occurs passes the
    check, and its items, single characters, include none of the names. *)
Lemma export_check_passes_on_a_string :
  ~ passes_iff_exports_include_std_funcs stringly.
Proof.
  intros [H _]. destruct (H eq_refl) as (all & names & E & Hiter & Hall).
  injection E as <-. injection Hiter as <-.
  specialize (Hall "data" (or_intror (or_intror (or_introl eq_refl)))).
  apply (chars_length "data" names_in_a_string) in Hall. discriminate Hall.
Qed.

(** C4 on [gravity], and on the export list of magnetotelluric_1D. *)
Lemma export_list_witness :
  check_exports gravity = Ok tt /\
  check_exports magnetotelluric_1D = Raise AssertionError.
Proof.
  split.
  - destruct (export_list_must_cover_std_funcs gravity)
      as (_ & _ & Hlist & _).
    apply (proj1 (Hlist (map YStr std_funcs) eq_refl)).
    intros fn Hfn. apply in_map. exact Hfn.
  - destruct (export_list_must_cover_std_funcs magnetotelluric_1D)
      as (_ & _ & Hlist & _).
    apply (proj2 (Hlist [YStr "Magnetotelluric1D"] eq_refl) "forward").
    + do 3 right. left. reflexivity.
    + intros [H | []]. discriminate H.
Defined.

(** C5 on [gravity] with a second example record lacking
    [model_dimension]. *)
Lemma bad_example_record_witness :
  exists e,
    test_contrib the_gravity true w0_bad_record
    = (Raise e, snd (before_metadata the_gravity true w0_bad_record)) /\
    (fst (before_metadata the_gravity true w0_bad_record) = Ok tt ->
     check_metadata
       (YMap (metadata_of [example_record; record_without_model_dimension]))
     = Raise e).
Proof.
  apply (bad_example_record_fails_before_cross_check the_gravity true
           w0_bad_record "no model_dimension"
           (metadata_of [example_record; record_without_model_dimension])
           [example_record; record_without_model_dimension]
           fields_without_model_dimension "model_dimension").
  - reflexivity.
  - reflexivity.
  - reflexivity.
  - right. left. reflexivity.
  - right. left. reflexivity.
  - reflexivity.
Defined.

Example bad_example_record_run :
  fst (main w0_bad_record) = Ok [Ran (Raise AssertionError)] /\
  trace (snd (main w0_bad_record)) = trace w5.
Proof. split; reflexivity. Qed.

(** C6 as worded fails: a plain file under [contrib] is a contribution. *)
Lemma discovery_takes_plain_file : ~ discovers_only_subfolders w0_with_file.
Proof.
  intros H.
  destruct (H [("README.md", "contrib/README.md"); the_gravity]
              ("README.md", "contrib/README.md") eq_refl (or_introl eq_refl))
    as (entries & st_size & E).
  vm_compute in E. discriminate E.
Qed.

Lemma discovery_witness :
  all_contribs w0_with_file
  = (Ok [("README.md", "contrib/README.md"); the_gravity], w0_with_file) /\
  test_contrib ("README.md", "contrib/README.md") true w0_with_file
  = (Raise NotADirectoryError, w0_with_file).
Proof.
  pose proof (discovery_lists_every_entry w0_with_file ["README.md"; "gravity"]
                eq_refl) as H.
  cbv zeta in H. destruct H as (Hall & _ & _ & _ & Hentry).
  split; [exact Hall |].
  destruct (Hentry "README.md" true (or_introl eq_refl)) as (_ & Hfile & _).
  exact (Hfile "# Contributions" eq_refl).
Defined.

(** C7 with the argument [both]. *)
Lemma pre_build_witness :
  pre_build w0_both = (Raise ValueError, w0_both) /\
  run_items [the_gravity] w0_both = ([Raise ValueError], w0_both).
Proof.
  destruct (pre_build_accepts_only_pre_and_post w0_both) as (_ & H).
  destruct (H (le_n 2)) as (_ & _ & Hother).
  assert (Npre : last (sys_argv w0_both) "" <> "pre")
    by (intros E; discriminate E).
  assert (Npost : last (sys_argv w0_both) "" <> "post")
    by (intros E; discriminate E).
  destruct (Hother Npre Npost) as (Hfix & _ & Hitems).
  split; [exact Hfix | exact (Hitems [the_gravity])].
Defined.

(** C8 as worded fails: two contributions, two insertions. *)
Lemma path_inserted_twice : ~ inserts_once_per_run w0_two.
Proof.
  intros H. specialize (H eq_refl). vm_compute in H. discriminate H.
Qed.

Lemma path_witness :
  sys_path (snd (main w0_two))
  = [""; "contrib"; "contrib"; "/usr/lib/python3"].
Proof.
  pose proof (path_inserted_for_each_loaded_contribution w0_two
                [the_gravity; the_magnetotelluric_1D] eq_refl eq_refl) as H.
  cbv zeta in H. destruct H as (H & _). exact H.
Defined.

(** C9 on [gravity] with an empty LICENCE. *)
Lemma empty_licence_witness :
  exists e w', test_contrib the_gravity true w0_empty_licence = (Raise e, w').
Proof.
  apply (proj2 (empty_licence_fails the_gravity true w0_empty_licence) eq_refl).
Defined.

Example empty_licence_run :
  fst (main w0_empty_licence) = Ok [Ran (Raise AssertionError)].
Proof. reflexivity. Qed.

(** C10 on [gravity] declaring no example. *)
Lemma zero_examples_witness :
  check_required_keys (YMap (metadata_of [])) = Ok 0 /\
  forall m w, check_examples m 0 w = (Ok tt, w).
Proof.
  destruct (zero_examples_accepted (metadata_of [])
              eq_refl eq_refl eq_refl eq_refl) as (H & _ & H0 & _).
  split; [exact H | exact H0].
Defined.

(** With no example declared the run passes; the only
    [set_example_number] call is the one of check 4. *)
Example zero_examples_run :
  fst (main w0_no_example) = Ok [Ran (Ok tt)] /\
  trace (snd (main w0_no_example)) = trace w5.
Proof. split; reflexivity. Qed.

End Runs.

(** * The further properties on concrete runs *)

Module MoreRuns.
Import Demo.

(** X1 on [gravity] without LICENCE. *)
Lemma layout_witness :
  test_contrib the_gravity true w0_no_licence
  = (Raise AssertionError, w0_no_licence).
Proof.
  destruct (layout_needs_main_file_and_required_files
              "gravity" "contrib/gravity" true w0_no_licence
              folder_without_licence eq_refl) as (_ & _ & H).
  apply H. intros [_ Hincl].
  specialize (Hincl "LICENCE" (or_intror (or_introl eq_refl))).
  simpl in Hincl. intuition discriminate.
Defined.

(** X2 on a contribution that cannot be imported. *)
Lemma import_witness :
  exists w',
    test_contrib the_seismic true w0_unknown = (Raise ModuleNotFoundError, w') /\
    sys_path w' = [""; "contrib"; "/usr/lib/python3"] /\
    trace w' = [] /\ state w' = 0%Z.
Proof.
  destruct (import_follows_the_mode "seismic" "contrib/seismic" true
              w0_unknown (folder_of "seismic") eq_refl eq_refl)
    as (_ & _ & _ & _ & _ & H).
  exact (H ModuleNotFoundError eq_refl).
Defined.


(** X4 on [unfinished]: [data()] raises [NotImplementedError]. *)
Lemma required_raise_witness :
  required_functions unfinished w3
  = (Raise NotImplementedError, snd (call_data unfinished w3b)).
Proof.
  destruct (required_function_must_not_raise unfinished w3
              NotImplementedError) as (_ & _ & H & _).
  exact (H w3a (VArray [3%nat]) w3b _ eq_refl eq_refl eq_refl).
Defined.

(** X5 on [triple]: three parts where two are expected. *)
Lemma three_parts_witness :
  probe_forward_with_jacobian triple (VArray [3%nat]) w4
  = (Raise ValueError,
     snd (call_forward triple (VArray [3%nat]) (Some true) w4)).
Proof.
  destruct (forward_with_jacobian_must_return_two_parts triple
              (VArray [3%nat]) w4 three_parts _ eq_refl) as (_ & H & _).
  apply (H [VArray [5%nat]; VArray [5%nat; 3%nat]; VNum 0] eq_refl).
  intros E. discriminate E.
Defined.


(** X7 on the metadata of [gravity]. *)
Lemma required_keys_witness :
  check_required_keys (YMap (metadata_of [example_record; example_record]))
  = Ok 2.
Proof.
  apply required_keys_pass_iff.
  exists (metadata_of [example_record; example_record]),
    (YSeq [example_record; example_record]),
    [example_record; example_record].
  split; [reflexivity |]. split.
  - intros k [<- | [<- | [<- | [<- | []]]]]; reflexivity.
  - split; [reflexivity |]. split; [reflexivity |]. split; [reflexivity |].
    intros example [<- | [<- | []]]; repeat split.
Defined.

(** X8 on the metadata of [gravity] with its [authors] removed. *)
Lemma missing_key_witness :
  check_metadata
    (YMap [(YStr "name", YStr "gravity");
           (YStr "short_description", YStr "gravity of a slab");
           (YStr "examples", YSeq [])])
  = Raise AssertionError.
Proof.
  destruct (metadata_must_be_a_mapping_with_required_keys
              (YMap [(YStr "name", YStr "gravity");
                     (YStr "short_description", YStr "gravity of a slab");
                     (YStr "examples", YSeq [])])) as (_ & _ & H & _).
  apply (H _ "authors" eq_refl); [| reflexivity].
  do 2 right. left. reflexivity.
Defined.

(** X9 on metadata with the three optional sections, and with none. *)
Lemma optional_sections_witness :
  check_optional_sections (YMap full_metadata) = Ok tt /\
  check_optional_sections (YMap (metadata_of [])) = Ok tt.
Proof.
  split.
  - apply (proj1 (optional_sections_pass_iff full_metadata)).
    split; [| split].
    + intros c E. injection E as <-. reflexivity.
    + intros cs E. injection E as <-. eexists. split; [reflexivity |].
      intros contact [<- | []]. split; reflexivity.
    + intros ws E. injection E as <-. eexists. split; [reflexivity |].
      intros website [<- | []]. split; reflexivity.
  - exact (proj1 (proj2 (optional_sections_pass_iff (metadata_of []))
                    eq_refl eq_refl eq_refl)).
Defined.

(** X10 on a metadata file PyYAML rejects. *)
Lemma unreadable_metadata_witness :
  exists e',
    test_contrib the_gravity true w0_not_yaml
    = (Raise e', snd (before_metadata the_gravity true w0_not_yaml)) /\
    (fst (before_metadata the_gravity true w0_not_yaml) = Ok tt ->
     e' = YAMLError).
Proof.
  exact (proj2 (unreadable_metadata_fails the_gravity true w0_not_yaml)
           YAMLError eq_refl).
Defined.

(** X11 on [validate.py bogus post]. *)
Lemma last_argument_witness :
  pre_build w0_many_arguments = (Ok false, w0_many_arguments).
Proof.
  exact (pre_build_reads_only_the_last_argument w0_many_arguments
           "validate.py" ["bogus"] "post" eq_refl).
Defined.

(** X12 on the run over [gravity] and [magnetotelluric_1D]. *)
Lemma magnetotelluric_witness :
  check_exports magnetotelluric_1D = Raise AssertionError /\
  exists w3,
    test_contrib the_magnetotelluric_1D true w0_two
    = (Raise AssertionError, w3) /\
    trace w3 = trace w0_two /\ state w3 = state w0_two.
Proof.
  destruct (magnetotelluric_export_list_is_rejected magnetotelluric_1D
              eq_refl) as (Hc & H).
  split; [exact Hc |].
  exact (H "magnetotelluric_1D" "contrib/magnetotelluric_1D" true w0_two
           (folder_of "magnetotelluric_1D") eq_refl eq_refl eq_refl).
Defined.

(** X13 with no [contrib] folder. *)
Lemma no_root_witness : main w0_no_root = (Raise FileNotFoundError, w0_no_root).
Proof.
  exact (proj1 (discovery_needs_a_listable_root w0_no_root) eq_refl).
Defined.

(** X14 on a run with the argument [post]. *)
Lemma post_mode_witness :
  sys_path (snd (main w0_post)) = [""; "/usr/lib/python3"].
Proof.
  exact (post_mode_run_keeps_sys_path w0_post eq_refl).
Defined.

End MoreRuns.
